(** * TwitchClient: the call pipeline of the Twitch API client

    A shallow embedding of [packages/twitch/src/TwitchClient.ts]:
    the call builder ([_getUrl], [_callAPIRaw]), the response decoder
    ([_transformResponse]), the call pipeline ([callAPI],
    [_callAPIInternal]) and the token introspection calls
    ([getTokenInfo]).

    Promises are modelled by a state-and-error monad over an abstract
    world; every suspension point that talks to a collaborator (the
    transport, the Helix rate limiter, the auth provider) is logged as an
    event together with its outcome, so that statements about "how often"
    and "in which order" are statements about the event log. *)

From Stdlib Require Import String Ascii List ZArith Bool Arith Lia DecimalString.
From Stdlib Require Floats.
Import PrimFloat.
Import ListNotations.
Open Scope string_scope.

Set Warnings "-register-all,-inexact-float".

(** ** JavaScript values *)

(** Values of type [any]; the numbers of a payload are integers. *)
Inductive JSValue : Type :=
| JUndefined
| JNull
| JBool (b : bool)
| JNumber (z : Z)
| JString (s : string)
| JArray (elems : list JSValue)
| JObject (fields : list (string * JSValue)).

(** [ToBoolean] on strings: only the empty string is falsy. *)
Definition truthy_string (s : string) : bool :=
  match s with
  | EmptyString => false
  | String _ _ => true
  end.

(** [ToBoolean] on numbers: zero is falsy. *)
Definition truthy_number (z : Z) : bool := negb (z =? 0)%Z.

(** [ToBoolean] on an arbitrary value. *)
Definition truthy (v : JSValue) : bool :=
  match v with
  | JUndefined | JNull => false
  | JBool b => b
  | JNumber z => truthy_number z
  | JString s => truthy_string s
  | JArray _ | JObject _ => true
  end.

(** [ToBoolean] on an optional string ([string | undefined]). *)
Definition truthy_opt_string (o : option string) : bool :=
  match o with
  | Some s => truthy_string s
  | None => false
  end.

(** The decimal numeral of an integer. *)
Definition decimal (z : Z) : string :=
  NilZero.string_of_int (Z.to_int z).

(** ** Numbers *)

(** The type [number]: the binary64 floating-point numbers, with their
    two zeros, two infinities and NaN. *)
Definition number : Type := PrimFloat.float.

(** [ToBoolean] on a number: the zeros and NaN are falsy. *)
Definition Number_truthy (x : number) : bool :=
  match FloatOps.Prim2SF x with
  | SpecFloat.S754_zero _ | SpecFloat.S754_nan => false
  | SpecFloat.S754_infinity _ | SpecFloat.S754_finite _ _ _ => true
  end.

(** [Number::toString] in radix 10 for a positive finite number
    [m * 2^e]: the shortest decimal that rounds to the number, written in
    positional form when its exponent is between -6 and 21 and in
    exponent form otherwise. *)
Module NumberToString.
Local Open Scope Z_scope.

(** The real number [mantissa * 2^binary * 10^power]. *)
Record scaled : Type := { mantissa : Z; binary : Z; power : Z }.

(** Two such numbers compared on a common denominator. *)
Definition compare (x y : scaled) : comparison :=
  let b := Z.min (binary x) (binary y) in
  let c := Z.min (power x) (power y) in
  Z.compare (mantissa x * 2 ^ (binary x - b) * 10 ^ (power x - c))
            (mantissa y * 2 ^ (binary y - b) * 10 ^ (power y - c)).

Definition lt (x y : scaled) : bool :=
  match compare x y with
  | Lt => true
  | _ => false
  end.

Definition le (x y : scaled) : bool :=
  match compare x y with
  | Gt => false
  | _ => true
  end.

(** [floor (m * 2^e * 10^j)] *)
Definition floor_scaled (m e j : Z) : Z :=
  (m * 2 ^ Z.max e 0 * 10 ^ Z.max j 0)
    / (2 ^ Z.max (- e) 0 * 10 ^ Z.max (- j) 0).

(** The [n] with [10^(n-1) <= m * 2^e < 10^n], from an estimate. *)
Fixpoint adjust (fuel : nat) (m e n : Z) : Z :=
  match fuel with
  | O => n
  | S f =>
      let v := {| mantissa := m; binary := e; power := 0 |} in
      if lt v {| mantissa := 1; binary := 0; power := n - 1 |}
      then adjust f m e (n - 1)
      else if le {| mantissa := 1; binary := 0; power := n |} v
           then adjust f m e (n + 1)
           else n
  end.

Definition magnitude (m e : Z) : Z :=
  adjust 8 m e (((e + Z.log2 m) * 30103) / 100000 + 1).

(** The reals that round to [m * 2^e] lie between the midpoints to its
    two neighbours; the midpoints round to it when [m] is even. *)
Definition rounds_to (m e : Z) (x : scaled) : bool :=
  let low :=
    if (m =? 2 ^ 52) && (-1074 <? e)
    then {| mantissa := 4 * m - 1; binary := e - 2; power := 0 |}
    else {| mantissa := 2 * m - 1; binary := e - 1; power := 0 |} in
  let high := {| mantissa := 2 * m + 1; binary := e - 1; power := 0 |} in
  if Z.even m then le low x && le x high else lt low x && lt x high.

(** The digits [s] and the exponent [n] of the decimal [s * 10^(n-k)]
    with the fewest digits [k] that rounds to [m * 2^e], and among those
    the closest one. *)
Fixpoint shortest (fuel : nat) (m e n k : Z) : Z * Z :=
  let d1 := floor_scaled m e (k - n) in
  let d2 := d1 + 1 in
  let x1 := {| mantissa := d1; binary := 0; power := n - k |} in
  let x2 := {| mantissa := d2; binary := 0; power := n - k |} in
  let pick (d : Z) := if d =? 10 ^ k then (10 ^ (k - 1), n + 1) else (d, n) in
  match fuel with
  | O => pick d1
  | S f =>
      if rounds_to m e x1 && rounds_to m e x2 then
        match compare {| mantissa := 2 * m; binary := e; power := 0 |}
                      {| mantissa := 2 * d1 + 1; binary := 0; power := n - k |}
        with
        | Lt => pick d1
        | Gt => pick d2
        | Eq => if Z.even d1 then pick d1 else pick d2
        end
      else if rounds_to m e x1 then pick d1
      else if rounds_to m e x2 then pick d2
      else shortest f m e n (k + 1)
  end.

Fixpoint zeros (n : nat) : string :=
  match n with
  | O => ""
  | S n' => String "0" (zeros n')
  end.

Definition positive_toString (m e : Z) : string :=
  let '(s, n) := shortest 17 m e (magnitude m e) 1 in
  let digits := decimal s in
  let k := Z.of_nat (String.length digits) in
  if (k <=? n) && (n <=? 21) then
    digits ++ zeros (Z.to_nat (n - k))
  else if (0 <? n) && (n <=? 21) then
    substring 0 (Z.to_nat n) digits ++ "."
      ++ substring (Z.to_nat n) (Z.to_nat (k - n)) digits
  else if (-6 <? n) && (n <=? 0) then
    "0." ++ zeros (Z.to_nat (- n)) ++ digits
  else
    let exponent :=
      (if 0 <=? n - 1 then "+" else "-") ++ decimal (Z.abs (n - 1)) in
    if k =? 1 then digits ++ "e" ++ exponent
    else substring 0 1 digits ++ "."
           ++ substring 1 (Z.to_nat (k - 1)) digits ++ "e" ++ exponent.
End NumberToString.

(** [ToString] of a number, as used by template literals. *)
Definition Number_toString (x : number) : string :=
  match FloatOps.Prim2SF x with
  | SpecFloat.S754_nan => "NaN"
  | SpecFloat.S754_zero _ => "0"
  | SpecFloat.S754_infinity false => "Infinity"
  | SpecFloat.S754_infinity true => "-Infinity"
  | SpecFloat.S754_finite false m e =>
      NumberToString.positive_toString (Zpos m) e
  | SpecFloat.S754_finite true m e =>
      "-" ++ NumberToString.positive_toString (Zpos m) e
  end.

(** ** The data model of a call *)

Inductive TwitchAPICallType : Type :=
| Kraken
| Helix
| Auth
| Custom.

Definition TwitchAPICallType_eqb (a b : TwitchAPICallType) : bool :=
  match a, b with
  | Kraken, Kraken | Helix, Helix | Auth, Auth | Custom, Custom => true
  | _, _ => false
  end.

Inductive Method : Type := GET | POST | PUT | PATCH | DELETE.

(** A value of a query or form record: [string | string[] | undefined]. *)
Inductive QueryValue : Type :=
| QString (s : string)
| QArray (l : list string)
| QUndefined.

(** [Record<string, string | string[] | undefined>], in property order. *)
Definition QueryRecord : Type := list (string * QueryValue).

Record TwitchAPICallOptions : Type := {
  url : string;
  type : option TwitchAPICallType;
  method : option Method;
  query : option QueryRecord;
  body : option QueryRecord;
  jsonBody : JSValue;
  scope : option string;
  version : option number
}.

Record TwitchAPICallOptionsInternal : Type := {
  options : TwitchAPICallOptions;
  clientId : option string;
  accessToken : option string
}.

(** ** The transport's data: headers, request, response *)

(** A [Headers] object: the list of name/value pairs in insertion order.
    The builder never appends the same name twice. *)
Definition Headers : Type := list (string * string).

Definition Headers_new (name value : string) : Headers := [(name, value)].

Definition Headers_append (h : Headers) (name value : string) : Headers :=
  (h ++ [(name, value)])%list.

(** [headers.get(name)]: the first value stored under [name]. *)
Fixpoint Headers_get (h : Headers) (name : string) : option string :=
  match h with
  | [] => None
  | (n, v) :: rest => if String.eqb n name then Some v else Headers_get rest name
  end.

Module RequestInit.
Record t : Type := {
  method : Method;
  headers : Headers;
  body : option string
}.
End RequestInit.

Module Response.
Record t : Type := {
  status : Z;
  statusText : string;
  text : string
}.

(** [response.ok]: the status is in the range 200-299. *)
Definition ok (r : t) : bool :=
  ((200 <=? status r) && (status r <=? 299))%Z.
End Response.

(** ** Library functions the client calls *)

(** The array format option of [stringify] from the query string package. *)
Inductive ArrayFormat : Type := Indices | Brackets | Repeat | Comma.

(** The library functions whose text is not part of the client: the query
    string encoder and the JSON serializer and parser. [JSON_parse]
    answers [None] where [JSON.parse] throws. *)
Class Platform : Type := {
  stringify : option QueryRecord -> option ArrayFormat -> string;
  JSON_stringify : JSValue -> string;
  JSON_parse : string -> option JSValue
}.

(** ** Call builder *)

(** [url.replace(/^\//, '')]: one leading slash, if there is one, is
    removed. *)
Definition strip_leading_slash (u : string) : string :=
  match u with
  | String "/"%char rest => rest
  | _ => u
  end.

Definition _getUrl (u : string) (ty : TwitchAPICallType) : string :=
  match ty with
  | Kraken | Helix =>
      let typeName :=
        if TwitchAPICallType_eqb ty Kraken then "kraken" else "helix" in
      "https://api.twitch.tv/" ++ typeName ++ "/" ++ strip_leading_slash u
  | Auth => "https://id.twitch.tv/oauth2/" ++ strip_leading_slash u
  | Custom => u
  end.

(** [options.type === undefined ? TwitchAPICallType.Kraken : options.type] *)
Definition effective_type (o : TwitchAPICallOptions) : TwitchAPICallType :=
  match type o with
  | None => Kraken
  | Some ty => ty
  end.

(** [options.version || 5] *)
Definition version_or_default (o : TwitchAPICallOptions) : number :=
  match version o with
  | Some v => if Number_truthy v then v else 5%float
  | None => 5%float
  end.

(** The initial [Headers] object of [_callAPIRaw]. *)
Definition accept_header (o : TwitchAPICallOptions) : string :=
  if TwitchAPICallType_eqb (effective_type o) Kraken
  then "application/vnd.twitchtv.v" ++ Number_toString (version_or_default o) ++ "+json"
  else "application/json".

Section Builder.
Context `{Platform}.

(** The [body] variable of [_callAPIRaw] and the headers after the
    body block. *)
Definition attach_body (o : TwitchAPICallOptions) (h : Headers)
  : option string * Headers :=
  match body o with
  | Some b =>
      (Some (stringify (Some b) None),
       Headers_append h "Content-Type" "application/x-www-form-urlencoded")
  | None =>
      if truthy (jsonBody o)
      then (Some (JSON_stringify (jsonBody o)),
            Headers_append h "Content-Type" "application/json")
      else (None, h)
  end.

Definition attach_client_id (ty : TwitchAPICallType) (cid : option string)
           (h : Headers) : Headers :=
  match cid with
  | Some c =>
      if truthy_string c && negb (TwitchAPICallType_eqb ty Auth)
      then Headers_append h "Client-ID" c
      else h
  | None => h
  end.

Definition attach_authorization (ty : TwitchAPICallType)
           (tok : option string) (h : Headers) : Headers :=
  match tok with
  | Some t =>
      if truthy_string t
      then Headers_append h "Authorization"
             ((if TwitchAPICallType_eqb ty Helix then "Bearer" else "OAuth")
                ++ " " ++ t)
      else h
  | None => h
  end.

(** [options.method || 'GET'] *)
Definition method_or_default (o : TwitchAPICallOptions) : Method :=
  match method o with
  | Some m => m
  | None => GET
  end.

(** The two arguments [_callAPIRaw] passes to [fetch]. *)
Definition _callAPIRaw_request (o : TwitchAPICallOptions)
           (cid tok : option string) : string * RequestInit.t :=
  let ty := effective_type o in
  let u := _getUrl (url o) ty in
  let params := stringify (query o) (Some Repeat) in
  let headers := Headers_new "Accept" (accept_header o) in
  let '(b, headers) := attach_body o headers in
  let headers := attach_client_id ty cid headers in
  let headers := attach_authorization ty tok headers in
  let requestOptions :=
    {| RequestInit.method := method_or_default o;
       RequestInit.headers := headers;
       RequestInit.body := b |} in
  (if truthy_string params then u ++ "?" ++ params else u, requestOptions).
End Builder.

(** ** Errors, tokens and collaborators *)

(** Modelled from the spec: the error classes [HTTPStatusCodeError] and
    [InvalidTokenError] are imported by the client and declared elsewhere.
    An HTTP status error carries the status code, the status text and the
    parsed body it is constructed with; the invalid token error carries
    nothing. [SyntaxError] is the rejection of [JSON.parse] and
    [response.json()]; [ExternalError] stands for any rejection raised by
    the transport, the rate limiter or the auth provider. *)
Inductive Error : Type :=
| HTTPStatusCodeError (statusCode : Z) (statusText : string) (body : JSValue)
| InvalidTokenError
| SyntaxError
| ExternalError (message : string).

(** The outcome of a promise: fulfilled with a value or rejected. *)
Inductive result (A : Type) : Type :=
| Ok (a : A)
| Err (e : Error).
Arguments Ok {A} a.
Arguments Err {A} e.

(** Modelled from the spec: the [AccessToken] class is declared elsewhere;
    it is an opaque token string with an expiry indicator. *)
Module AccessToken.
Record t : Type := {
  accessToken : string;
  isExpired : bool
}.
End AccessToken.

(** The part of the [AuthProvider] interface that is plain data: the
    client identifier and whether the optional [refresh] method exists. *)
Module AuthProvider.
Record t : Type := {
  clientId : string;
  has_refresh : bool
}.
End AuthProvider.

(** [new TokenInfo(data)] *)
Inductive TokenInfo : Type :=
| TokenInfo_new (data : JSValue).

(** One completed interaction with a collaborator, with its outcome. *)
Inductive Event : Type :=
| EvFetch (u : string) (init : RequestInit.t) (r : result Response.t)
| EvLimiterRequest (req : TwitchAPICallOptionsInternal) (r : result Response.t)
| EvGetAccessToken (scopes : option (list string))
                   (r : result (option AccessToken.t))
| EvRefresh (r : result AccessToken.t).

(** The collaborators, as transitions of a world [W]: the [fetch]
    primitive, [HelixRateLimiter.request], and the two methods of the auth
    provider. *)
Record Env (W : Type) : Type := {
  fetch : string -> RequestInit.t -> W -> result Response.t * W;
  helixRateLimiter_request :
    TwitchAPICallOptionsInternal -> W -> result Response.t * W;
  authProvider_getAccessToken :
    option (list string) -> W -> result (option AccessToken.t) * W;
  authProvider_refresh : W -> result AccessToken.t * W
}.
Arguments fetch {W} _ _ _ _.
Arguments helixRateLimiter_request {W} _ _ _.
Arguments authProvider_getAccessToken {W} _ _ _.
Arguments authProvider_refresh {W} _ _.

(** ** The promise monad *)

(** A state of the run: the world and the log of events so far (oldest
    first). *)
Definition Run (W : Type) : Type := (W * list Event)%type.

Definition Async (W A : Type) : Type := Run W -> result A * Run W.

Definition ret {W A} (a : A) : Async W A := fun s => (Ok a, s).

Definition throw {W A} (e : Error) : Async W A := fun s => (Err e, s).

Definition bind {W A B} (m : Async W A) (k : A -> Async W B) : Async W B :=
  fun s =>
    match m s with
    | (Ok a, s') => k a s'
    | (Err e, s') => (Err e, s')
    end.

(** [try { m } catch (e) { h e }] *)
Definition try_catch {W A} (m : Async W A) (h : Error -> Async W A)
  : Async W A :=
  fun s =>
    match m s with
    | (Ok a, s') => (Ok a, s')
    | (Err e, s') => h e s'
    end.

(** A promise that is already settled. *)
Definition settled {W A} (r : result A) : Async W A := fun s => (r, s).

(** Awaiting a collaborator: run the transition and log the event. *)
Definition await {W A} (step : W -> result A * W)
           (ev : result A -> Event) : Async W A :=
  fun '(w, log) =>
    let '(r, w') := step w in
    (r, (w', (log ++ [ev r])%list)).

Declare Scope async_scope.
Delimit Scope async_scope with async.
Notation "x <- m ;; k" := (bind m (fun x => k))
  (at level 61, m at next level, right associativity) : async_scope.
Notation "'try' m 'catch' e => h" := (try_catch m (fun e => h))
  (at level 61, m at next level, e name, h at next level) : async_scope.
Open Scope async_scope.

(** ** Response decoder *)

Section Decoder.
Context `{Platform}.

(** [response.json()] *)
Definition Response_json (response : Response.t) : result JSValue :=
  match JSON_parse (Response.text response) with
  | Some v => Ok v
  | None => Err SyntaxError
  end.

Definition _transformResponse (response : Response.t) : result JSValue :=
  if negb (Response.ok response) then
    match Response_json response with
    | Ok parsed =>
        Err (HTTPStatusCodeError (Response.status response)
                                 (Response.statusText response) parsed)
    | Err e => Err e
    end
  else if (Response.status response =? 204)%Z then
    Ok JUndefined
  else
    let text := Response.text response in
    if negb (truthy_string text) then
      Ok JUndefined
    else
      match JSON_parse text with
      | Some v => Ok v
      | None => Err SyntaxError
      end.
End Decoder.

(** ** Call pipeline *)

(** [options.scope ? [options.scope] : otherwise] *)
Definition scope_argument (o : TwitchAPICallOptions)
           (otherwise : option (list string)) : option (list string) :=
  match scope o with
  | Some s => if truthy_string s then Some [s] else otherwise
  | None => otherwise
  end.

(** [e instanceof HTTPStatusCodeError && e.statusCode === 401] *)
Definition is_unauthorized (e : Error) : bool :=
  match e with
  | HTTPStatusCodeError code _ _ => (code =? 401)%Z
  | _ => false
  end.

(** [{ type: TwitchAPICallType.Auth, url: 'validate' }] *)
Definition validate_options : TwitchAPICallOptions :=
  {| url := "validate"; type := Some Auth; method := None; query := None;
     body := None; jsonBody := JUndefined; scope := None; version := None |}.

Section Pipeline.
Context `{Platform} {W : Type} (env : Env W).

(** static [_callAPIRaw] *)
Definition _callAPIRaw (o : TwitchAPICallOptions) (cid tok : option string)
  : Async W Response.t :=
  let '(u, requestOptions) := _callAPIRaw_request o cid tok in
  await (fetch env u requestOptions) (EvFetch u requestOptions).

(** static [callAPI] *)
Definition static_callAPI (o : TwitchAPICallOptions)
           (cid tok : option string) : Async W JSValue :=
  response <- _callAPIRaw o cid tok ;;
  settled (_transformResponse response).

(** static [getTokenInfo] *)
Definition static_getTokenInfo (tok : string) (cid : option string)
  : Async W TokenInfo :=
  try (data <- static_callAPI validate_options cid (Some tok) ;;
       ret (TokenInfo_new data))
  catch e =>
    (if is_unauthorized e then throw InvalidTokenError else throw e).

Definition _callAPIInternal (o : TwitchAPICallOptions)
           (cid tok : option string) : Async W Response.t :=
  match type o with
  | Some Helix =>
      let req := {| options := o; clientId := cid; accessToken := tok |} in
      await (helixRateLimiter_request env req) (EvLimiterRequest req)
  | _ => _callAPIRaw o cid tok
  end.

Definition await_getAccessToken (scopes : option (list string))
  : Async W (option AccessToken.t) :=
  await (authProvider_getAccessToken env scopes) (EvGetAccessToken scopes).

Definition await_refresh : Async W AccessToken.t :=
  await (authProvider_refresh env) EvRefresh.

(** instance [callAPI] *)
Definition callAPI (authProvider : AuthProvider.t)
           (o : TwitchAPICallOptions) : Async W JSValue :=
  let cid := Some (AuthProvider.clientId authProvider) in
  accessToken <- await_getAccessToken (scope_argument o None) ;;
  match accessToken with
  | None => static_callAPI o cid None
  | Some accessToken =>
      accessToken <-
        (if AccessToken.isExpired accessToken
            && AuthProvider.has_refresh authProvider
         then await_refresh
         else ret accessToken) ;;
      response <-
        _callAPIInternal o cid (Some (AccessToken.accessToken accessToken)) ;;
      response <-
        (if (Response.status response =? 401)%Z
            && AuthProvider.has_refresh authProvider
         then
           _ <- await_refresh ;;
           accessToken <- await_getAccessToken (scope_argument o (Some [])) ;;
           match accessToken with
           | Some accessToken =>
               _callAPIInternal o cid
                 (Some (AccessToken.accessToken accessToken))
           | None => ret response
           end
         else ret response) ;;
      settled (_transformResponse response)
  end.

(** instance [getTokenInfo] *)
Definition getTokenInfo (authProvider : AuthProvider.t) : Async W TokenInfo :=
  try (data <- callAPI authProvider validate_options ;;
       ret (TokenInfo_new data))
  catch e =>
    (if is_unauthorized e then throw InvalidTokenError else throw e).

(** Running a call from a world with an empty log. *)
Definition run {A} (m : Async W A) (w : W) : result A * Run W := m (w, []).
End Pipeline.

(** ** A concrete platform and scripted collaborators

    The pipeline is parametric in the platform and in the collaborators.
    To run it on concrete calls this module supplies a platform for the
    fragment of JSON and of query strings that [JSValue] and plain
    (unreserved) characters cover, and collaborators that answer from a
    script. *)
Module Sample.

Definition dquote : ascii := "034"%char.

Definition is_digit (c : ascii) : bool :=
  let n := nat_of_ascii c in ((48 <=? n) && (n <=? 57))%nat.

Definition is_ws (c : ascii) : bool :=
  let n := nat_of_ascii c in
  ((n =? 32) || (n =? 9) || (n =? 10) || (n =? 13))%nat.

Fixpoint skip_ws (s : string) : string :=
  match s with
  | String c r => if is_ws c then skip_ws r else s
  | EmptyString => s
  end.

Fixpoint digits (s : string) (acc : Z) : Z * string :=
  match s with
  | String c r =>
      if is_digit c
      then digits r (10 * acc + Z.of_nat (nat_of_ascii c - 48))%Z
      else (acc, s)
  | EmptyString => (acc, s)
  end.

(** An integer numeral; a fraction or exponent part is outside the
    fragment and rejected. *)
Definition number (s : string) : option (Z * string) :=
  let '(neg, s1) :=
    match s with
    | String "-"%char r => (true, r)
    | _ => (false, s)
    end in
  match s1 with
  | String c r =>
      if is_digit c then
        let '(n, rest) := if Ascii.eqb c "0" then (0%Z, r) else digits s1 0 in
        match rest with
        | String "."%char _ | String "e"%char _ | String "E"%char _ => None
        | _ => Some (if neg then (- n)%Z else n, rest)
        end
      else None
  | EmptyString => None
  end.

(** The characters of a string literal up to its closing quote; escape
    sequences are outside the fragment and rejected. *)
Fixpoint chars (s : string) : option (string * string) :=
  match s with
  | String c r =>
      if Ascii.eqb c dquote then Some (EmptyString, r)
      else if Ascii.eqb c "\" || (nat_of_ascii c <? 32)%nat then None
      else match chars r with
           | Some (str, rest) => Some (String c str, rest)
           | None => None
           end
  | EmptyString => None
  end.

Definition literal (lit : string) (v : JSValue) (s : string)
  : option (JSValue * string) :=
  if String.prefix lit s
  then Some (v, substring (String.length lit)
                          (String.length s - String.length lit) s)
  else None.

Fixpoint value (fuel : nat) (s : string) : option (JSValue * string) :=
  match fuel with
  | O => None
  | S f =>
      match skip_ws s with
      | String c r =>
          if Ascii.eqb c "[" then
            match skip_ws r with
            | String "]"%char r' => Some (JArray [], r')
            | _ => match elements f r with
                   | Some (l, rest) => Some (JArray l, rest)
                   | None => None
                   end
            end
          else if Ascii.eqb c "{" then
            match skip_ws r with
            | String "}"%char r' => Some (JObject [], r')
            | _ => match members f r with
                   | Some (l, rest) => Some (JObject l, rest)
                   | None => None
                   end
            end
          else if Ascii.eqb c dquote then
            match chars r with
            | Some (str, rest) => Some (JString str, rest)
            | None => None
            end
          else if Ascii.eqb c "n" then literal "null" JNull (String c r)
          else if Ascii.eqb c "t" then literal "true" (JBool true) (String c r)
          else if Ascii.eqb c "f" then literal "false" (JBool false) (String c r)
          else match number (String c r) with
               | Some (n, rest) => Some (JNumber n, rest)
               | None => None
               end
      | EmptyString => None
      end
  end
with elements (fuel : nat) (s : string) : option (list JSValue * string) :=
  match fuel with
  | O => None
  | S f =>
      match value f s with
      | Some (v, rest) =>
          match skip_ws rest with
          | String ","%char r =>
              match elements f r with
              | Some (l, rest') => Some (v :: l, rest')
              | None => None
              end
          | String "]"%char r => Some ([v], r)
          | _ => None
          end
      | None => None
      end
  end
with members (fuel : nat) (s : string)
  : option (list (string * JSValue) * string) :=
  match fuel with
  | O => None
  | S f =>
      match skip_ws s with
      | String c r =>
          if Ascii.eqb c dquote then
            match chars r with
            | Some (key, rest) =>
                match skip_ws rest with
                | String ":"%char r1 =>
                    match value f r1 with
                    | Some (v, rest1) =>
                        match skip_ws rest1 with
                        | String ","%char r2 =>
                            match members f r2 with
                            | Some (l, rest2) => Some ((key, v) :: l, rest2)
                            | None => None
                            end
                        | String "}"%char r2 => Some ([(key, v)], r2)
                        | _ => None
                        end
                    | None => None
                    end
                | _ => None
                end
            | None => None
            end
          else None
      | EmptyString => None
      end
  end.

(** [JSON.parse] on the fragment: one value, surrounded by white space. *)
Definition parse (s : string) : option JSValue :=
  match value (S (String.length s)) s with
  | Some (v, rest) =>
      match skip_ws rest with
      | EmptyString => Some v
      | _ => None
      end
  | None => None
  end.

Definition quote (s : string) : string :=
  String dquote (s ++ String dquote EmptyString).

Definition join (sep : string) (l : list string) : string :=
  String.concat sep l.

(** [JSON.stringify] on the fragment (string literals are written
    without escapes). An [undefined] array element prints as [null], an
    [undefined] property is left out. *)
Fixpoint serialize (v : JSValue) : string :=
  match v with
  | JUndefined | JNull => "null"
  | JBool true => "true"
  | JBool false => "false"
  | JNumber z => decimal z
  | JString s => quote s
  | JArray l => "[" ++ join "," (map serialize l) ++ "]"
  | JObject fs =>
      "{" ++ join ","
        ((fix props (fs : list (string * JSValue)) : list string :=
            match fs with
            | [] => []
            | (_, JUndefined) :: rest => props rest
            | (k, x) :: rest => (quote k ++ ":" ++ serialize x) :: props rest
            end) fs) ++ "}"
  end.

(** One key of a query record in the given array format. *)
Definition pairs (fmt : option ArrayFormat) (k : string) (v : QueryValue)
  : list string :=
  match v with
  | QString s => [k ++ "=" ++ s]
  | QUndefined => []
  | QArray l =>
      match fmt with
      | Some Repeat => map (fun x => k ++ "=" ++ x) l
      | Some Brackets => map (fun x => k ++ "%5B%5D=" ++ x) l
      | Some Comma => match l with
                      | [] => []
                      | _ => [k ++ "=" ++ join "," l]
                      end
      | Some Indices | None =>
          map (fun '(i, x) =>
                 k ++ "%5B" ++ decimal (Z.of_nat i) ++ "%5D=" ++ x)
              (combine (seq 0 (List.length l)) l)
      end
  end.

(** [stringify] for keys and values of unreserved characters, which the
    encoder leaves as they are (the brackets it adds are encoded). *)
Definition query_string (q : option QueryRecord) (fmt : option ArrayFormat)
  : string :=
  match q with
  | None => ""
  | Some fields => join "&" (flat_map (fun '(k, v) => pairs fmt k v) fields)
  end.

#[export] Instance platform : Platform :=
  {| stringify := query_string;
     JSON_stringify := serialize;
     JSON_parse := parse |}.

(** A script: the answers the collaborators will give, in order. The
    transport and the rate limiter share one list of responses. *)
Record Script : Type := {
  tokens : list (result (option AccessToken.t));
  refreshes : list (result AccessToken.t);
  responses : list (result Response.t)
}.

Definition exhausted {A} : result A := Err (ExternalError "script exhausted").

Definition next_response (w : Script) : result Response.t * Script :=
  match responses w with
  | r :: rest =>
      (r, {| tokens := tokens w; refreshes := refreshes w; responses := rest |})
  | [] => (exhausted, w)
  end.

Definition next_token (w : Script) : result (option AccessToken.t) * Script :=
  match tokens w with
  | r :: rest =>
      (r, {| tokens := rest; refreshes := refreshes w; responses := responses w |})
  | [] => (exhausted, w)
  end.

Definition next_refresh (w : Script) : result AccessToken.t * Script :=
  match refreshes w with
  | r :: rest =>
      (r, {| tokens := tokens w; refreshes := rest; responses := responses w |})
  | [] => (exhausted, w)
  end.

Definition env : Env Script :=
  {| fetch := fun _ _ => next_response;
     helixRateLimiter_request := fun _ => next_response;
     authProvider_getAccessToken := fun _ => next_token;
     authProvider_refresh := next_refresh |}.

Definition token (s : string) : AccessToken.t :=
  {| AccessToken.accessToken := s; AccessToken.isExpired := false |}.

Definition response (code : Z) (message text : string) : Response.t :=
  {| Response.status := code; Response.statusText := message;
     Response.text := text |}.

(** An error payload: an object with a status and a message. *)
Definition error_body (code : Z) (message : string) : string :=
  "{" ++ quote "status" ++ ":" ++ decimal code ++ ","
      ++ quote "message" ++ ":" ++ quote message ++ "}".

Definition refreshable : AuthProvider.t :=
  {| AuthProvider.clientId := "abc123"; AuthProvider.has_refresh := true |}.

Definition call (ty : option TwitchAPICallType) (path : string)
  : TwitchAPICallOptions :=
  {| url := path; type := ty; method := None; query := None; body := None;
     jsonBody := JUndefined; scope := None; version := None |}.
End Sample.

(** ** The Helix rate limiter *)

(** The class [HelixRateLimiter] is imported by the client and declared
    elsewhere; the client only calls its [request] method. The limiter is
    modelled as a state machine over the events of its life: a request
    arrives, a dispatched request completes, the queue is woken up. *)
Module HelixRateLimiter.
Local Open Scope nat_scope.
Local Open Scope list_scope.

(** Modelled from the spec: the rate limit bucket, which is missing
    from the sources. It holds the current remaining-call count, the
    total capacity and the reset time; the count is never negative. *)
Record RateLimitBucket : Type := {
  remaining : nat;
  capacity : nat;
  resetTime : nat
}.

(** Modelled from the spec: a queued request, which is missing from the
    sources: a pending call descriptor plus the identity of the promise
    that resolves it. *)
Record QueuedRequest : Type := {
  descriptor : TwitchAPICallOptionsInternal;
  promise : nat
}.

(** Modelled from the spec: the state of the limiter, which is missing
    from the sources: the bucket, the queue (head first) and, as a
    record of what happened, the requests dispatched so far (oldest
    first). *)
Record t : Type := {
  bucket : RateLimitBucket;
  queue : list QueuedRequest;
  dispatched : list QueuedRequest
}.

(** Modelled from the spec: the test of [request], which is missing
    from the sources: the bucket has zero remaining capacity and the
    reset time has not elapsed. *)
Definition must_wait (b : RateLimitBucket) (now : nat) : bool :=
  (remaining b =? 0) && (now <? resetTime b).

(** Modelled from the spec: the optimistic local decrement of the
    remaining count on dispatch, which is missing from the sources. *)
Definition decrement (b : RateLimitBucket) : RateLimitBucket :=
  {| remaining := pred (remaining b);
     capacity := capacity b;
     resetTime := resetTime b |}.

(** Modelled from the spec: dispatching one request, which is missing
    from the sources: it is sent and the remaining count is decremented. *)
Definition dispatch (q : QueuedRequest) (rest : list QueuedRequest) (s : t) : t :=
  {| bucket := decrement (bucket s);
     queue := rest;
     dispatched := dispatched s ++ [q] |}.

(** Modelled from the spec: the public operation [request], which is
    missing from the sources: enqueue if the bucket has zero remaining
    capacity and the reset time has not elapsed, otherwise dispatch
    immediately. *)
Definition request (q : QueuedRequest) (now : nat) (s : t) : t :=
  if must_wait (bucket s) now
  then {| bucket := bucket s;
          queue := queue s ++ [q];
          dispatched := dispatched s |}
  else dispatch q (queue s) s.

(** Modelled from the spec: the completion of a dispatch, which is
    missing from the sources: the bucket is overwritten by the values
    the response metadata reports. *)
Definition completed (reported : RateLimitBucket) (s : t) : t :=
  {| bucket := reported; queue := queue s; dispatched := dispatched s |}.

(** Modelled from the spec: one step of draining the queue, which is
    missing from the sources: capacity is checked again, and if the
    bucket allows it the head of the queue is dispatched. *)
Definition drain (now : nat) (s : t) : t :=
  match queue s with
  | [] => s
  | q :: rest => if must_wait (bucket s) now then s else dispatch q rest s
  end.

(** Modelled from the spec: the events of the limiter. *)
Inductive Event : Type :=
| Arrive (q : QueuedRequest) (now : nat)
| Completed (reported : RateLimitBucket)
| Drain (now : nat).

(** Modelled from the spec: the limiter's reaction to one event. *)
Definition step (s : t) (e : Event) : t :=
  match e with
  | Arrive q now => request q now s
  | Completed reported => completed reported s
  | Drain now => drain now s
  end.




(** A limiter that has dispatched nothing and holds nothing. *)
Definition fresh (b : RateLimitBucket) : t :=
  {| bucket := b; queue := []; dispatched := [] |}.


End HelixRateLimiter.

(** ** Vocabulary of the statements *)

(** All the values stored under a header name, in insertion order. *)
Definition Headers_values (h : Headers) (name : string) : list string :=
  map snd (filter (fun nv => String.eqb (fst nv) name) h).

(** The vendor media type of the Kraken API for a version. *)
Definition vendor_media_type (v : number) : string :=
  "application/vnd.twitchtv.v" ++ Number_toString v ++ "+json".

(** The descriptor [o] with its endpoint group replaced. *)
Definition with_type (o : TwitchAPICallOptions)
           (ty : option TwitchAPICallType) : TwitchAPICallOptions :=
  {| url := url o; type := ty; method := method o; query := query o;
     body := body o; jsonBody := jsonBody o; scope := scope o;
     version := version o |}.

(** The scopes a [getAccessToken] argument asks for: [undefined] asks for
    none. *)
Definition requested_scopes (arg : option (list string)) : list string :=
  match arg with
  | Some l => l
  | None => []
  end.

Definition is_refresh (e : Event) : bool :=
  match e with
  | EvRefresh _ => true
  | _ => false
  end.

Definition is_dispatch (e : Event) : bool :=
  match e with
  | EvFetch _ _ _ | EvLimiterRequest _ _ => true
  | _ => false
  end.

(** The responses received in a log, in order. *)
Fixpoint responses_of (log : list Event) : list Response.t :=
  match log with
  | [] => []
  | EvFetch _ _ (Ok r) :: rest | EvLimiterRequest _ (Ok r) :: rest =>
      r :: responses_of rest
  | _ :: rest => responses_of rest
  end.

Section Dispatch.
Context `{Platform} {W : Type} (env : Env W).

(** The collaborator [_callAPIInternal] hands a call to. *)
Definition dispatch_step (o : TwitchAPICallOptions) (cid tok : option string)
  : W -> result Response.t * W :=
  match type o with
  | Some Helix =>
      helixRateLimiter_request env
        {| options := o; clientId := cid; accessToken := tok |}
  | _ =>
      fetch env (fst (_callAPIRaw_request o cid tok))
                (snd (_callAPIRaw_request o cid tok))
  end.

(** The event [_callAPIInternal] leaves in the log. *)
Definition dispatch_event (o : TwitchAPICallOptions) (cid tok : option string)
  : result Response.t -> Event :=
  match type o with
  | Some Helix =>
      EvLimiterRequest {| options := o; clientId := cid; accessToken := tok |}
  | _ =>
      EvFetch (fst (_callAPIRaw_request o cid tok))
              (snd (_callAPIRaw_request o cid tok))
  end.
End Dispatch.

(** The wrapper [outer] of the call [inner] translates a rejection with
    an HTTP status error of status 401 into [InvalidTokenError], lets
    every other rejection through unchanged, and wraps a result by
    [wrap]. *)
Definition translates_unauthorized {W A B : Type}
           (inner : Async W A) (outer : Async W B) (wrap : A -> B) : Prop :=
  forall s : Run W,
    (forall text parsed s',
        inner s = (Err (HTTPStatusCodeError 401 text parsed), s') ->
        outer s = (Err InvalidTokenError, s')) /\
    (forall e s',
        inner s = (Err e, s') ->
        (forall text parsed, e <> HTTPStatusCodeError 401 text parsed) ->
        outer s = (Err e, s')) /\
    (forall a s', inner s = (Ok a, s') -> outer s = (Ok (wrap a), s')).

(** ** The rest of the client *)

(** *** Token issuance *)

Section TokenCalls.
Context `{Platform} {W : Type} (env : Env W).

(** [new AccessToken(data)]: the class is declared elsewhere, its
    constructor is a parameter. *)
Variable AccessToken_new : JSValue -> AccessToken.t.

(** static [getAccessToken] *)
Definition static_getAccessToken (cid secret code redirectUri : string)
  : Async W AccessToken.t :=
  data <- static_callAPI env
            {| url := "token"; type := Some Auth; method := Some POST;
               query := Some [("grant_type", QString "authorization_code");
                              ("client_id", QString cid);
                              ("client_secret", QString secret);
                              ("code", QString code);
                              ("redirect_uri", QString redirectUri)];
               body := None; jsonBody := JUndefined; scope := None;
               version := None |} None None ;;
  ret (AccessToken_new data).

(** static [getAppAccessToken] *)
Definition static_getAppAccessToken (cid secret : string)
  : Async W AccessToken.t :=
  data <- static_callAPI env
            {| url := "token"; type := Some Auth; method := Some POST;
               query := Some [("grant_type", QString "client_credentials");
                              ("client_id", QString cid);
                              ("client_secret", QString secret)];
               body := None; jsonBody := JUndefined; scope := None;
               version := None |} None None ;;
  ret (AccessToken_new data).

(** static [refreshAccessToken] *)
Definition static_refreshAccessToken (cid secret refreshToken : string)
  : Async W AccessToken.t :=
  data <- static_callAPI env
            {| url := "token"; type := Some Auth; method := Some POST;
               query := Some [("grant_type", QString "refresh_token");
                              ("client_id", QString cid);
                              ("client_secret", QString secret);
                              ("refresh_token", QString refreshToken)];
               body := None; jsonBody := JUndefined; scope := None;
               version := None |} None None ;;
  ret (AccessToken_new data).

(** instance [refreshAccessToken]:
    [authProvider.refresh && authProvider.refresh()]; [None] is the
    [undefined] of a provider without [refresh]. *)
Definition refreshAccessToken (authProvider : AuthProvider.t)
  : Async W (option AccessToken.t) :=
  if AuthProvider.has_refresh authProvider
  then (refreshed <- await_refresh env ;; ret (Some refreshed))
  else ret None.
End TokenCalls.

(** *** Construction *)

(** [new ConfigError(message)]; the class is declared elsewhere. *)
Inductive ConfigError : Type :=
| ConfigError_new (message : string).

(** ['user' | 'app'] *)
Module AuthProviderTokenType.
Inductive t : Type := user | app.
End AuthProviderTokenType.

(** What the client imports from declarations that are not part of it:
    the cheermote enumerations with the three members it names, the
    refresh configuration, and the log level [CRITICAL] (log levels are
    numbers). *)
Class Imported : Type := {
  CheermoteBackground : Type;
  CheermoteState : Type;
  CheermoteScale : Type;
  RefreshConfig : Type;
  dark : CheermoteBackground;
  animated : CheermoteState;
  x1 : CheermoteScale;
  CRITICAL : Z
}.

Section Construction.
Context `{Imported}.

Record TwitchCheermoteConfig : Type := {
  defaultBackground : CheermoteBackground;
  defaultState : CheermoteState;
  defaultScale : CheermoteScale
}.

(** The provider objects the factories construct: the [new] expressions
    with their arguments. *)
Inductive ProviderObject : Type :=
| StaticAuthProvider_new (cid : string) (tok : option string)
                         (scopes : option (list string))
                         (tokenType : option AuthProviderTokenType.t)
| RefreshableAuthProvider_new (child : ProviderObject)
                              (refreshConfig : RefreshConfig)
| ClientCredentialsAuthProvider_new (cid secret : string).

(** [TwitchConfig], with the provider objects of type [P]. *)
Record TwitchConfig (P : Type) : Type := {
  authProvider : P;
  preAuth : bool;
  initialScopes : option (list string);
  cheermotes : TwitchCheermoteConfig;
  logLevel : option Z
}.

(** [Partial<TwitchConfig>]: [None] is a property that is not there. *)
Record PartialTwitchConfig (P : Type) : Type := {
  given_authProvider : option P;
  given_preAuth : option bool;
  given_initialScopes : option (list string);
  given_cheermotes : option TwitchCheermoteConfig;
  given_logLevel : option Z
}.

(** [new HelixRateLimiter(logLevel)] *)
Inductive HelixRateLimiterObject : Type :=
| HelixRateLimiter_new (level : Z).

(** An instance: its two private fields. *)
Record TwitchClient (P : Type) : Type := {
  _config : TwitchConfig P;
  _helixRateLimiter : HelixRateLimiterObject
}.

Arguments authProvider {P} _.
Arguments preAuth {P} _.
Arguments initialScopes {P} _.
Arguments cheermotes {P} _.
Arguments logLevel {P} _.
Arguments given_authProvider {P} _.
Arguments given_preAuth {P} _.
Arguments given_initialScopes {P} _.
Arguments given_cheermotes {P} _.
Arguments given_logLevel {P} _.
Arguments _config {P} _.
Arguments _helixRateLimiter {P} _.

(** [{}] *)
Definition empty_config {P : Type} : PartialTwitchConfig P :=
  {| given_authProvider := None; given_preAuth := None;
     given_initialScopes := None; given_cheermotes := None;
     given_logLevel := None |}.

(** [{ ...config, authProvider }] *)
Definition with_authProvider {P Q : Type} (config : PartialTwitchConfig P)
           (provider : Q) : PartialTwitchConfig Q :=
  {| given_authProvider := Some provider;
     given_preAuth := given_preAuth config;
     given_initialScopes := given_initialScopes config;
     given_cheermotes := given_cheermotes config;
     given_logLevel := given_logLevel config |}.

(** [config.logLevel || LogLevel.CRITICAL] *)
Definition logLevel_or_critical {P : Type} (config : PartialTwitchConfig P) : Z :=
  match given_logLevel config with
  | Some level => if truthy_number level then level else CRITICAL
  | None => CRITICAL
  end.

(** The [_config] the constructor stores: the defaults, then the
    provider, then the rest of the given configuration. *)
Definition merged_config {P : Type} (provider : P)
           (config : PartialTwitchConfig P) : TwitchConfig P :=
  {| authProvider := provider;
     preAuth := match given_preAuth config with
                | Some b => b
                | None => false
                end;
     initialScopes := given_initialScopes config;
     cheermotes := match given_cheermotes config with
                   | Some c => c
                   | None => {| defaultBackground := dark;
                                defaultState := animated;
                                defaultScale := x1 |}
                   end;
     logLevel := given_logLevel config |}.

Section Constructor.
Context {W : Type} (env : Env W).

(** The constructor. It throws synchronously; the token request of
    [preAuth] is started and its promise is left alone, so its outcome
    does not reach the caller. *)
Definition TwitchClient_new {P : Type} (config : PartialTwitchConfig P)
  : Run W -> (ConfigError + TwitchClient P) * Run W :=
  fun s =>
    match given_authProvider config with
    | None => (inl (ConfigError_new "No auth provider given"), s)
    | Some provider =>
        let limiter := HelixRateLimiter_new (logLevel_or_critical config) in
        let client := {| _config := merged_config provider config;
                         _helixRateLimiter := limiter |} in
        if preAuth (_config client)
        then (inr client,
              snd (await_getAccessToken env (initialScopes (_config client)) s))
        else (inr client, s)
    end.

(** static [withCredentials]; [tokenType] is the argument after its
    default ['user'] has been applied. *)
Definition withCredentials {P : Type} (cid : string) (tok : option string)
           (scopes : option (list string)) (refreshConfig : option RefreshConfig)
           (config : PartialTwitchConfig P) (tokenType : AuthProviderTokenType.t)
  : Run W -> (ConfigError + TwitchClient ProviderObject) * Run W :=
  let provider :=
    match refreshConfig with
    | Some rc =>
        RefreshableAuthProvider_new
          (StaticAuthProvider_new cid tok scopes (Some tokenType)) rc
    | None => StaticAuthProvider_new cid tok scopes (Some tokenType)
    end in
  TwitchClient_new (with_authProvider config provider).

(** static [withClientCredentials] *)
Definition withClientCredentials {P : Type} (cid : string)
           (secret : option string) (config : PartialTwitchConfig P)
  : Run W -> (ConfigError + TwitchClient ProviderObject) * Run W :=
  let provider :=
    match secret with
    | Some sec =>
        if truthy_string sec
        then ClientCredentialsAuthProvider_new cid sec
        else StaticAuthProvider_new cid None None None
    | None => StaticAuthProvider_new cid None None None
    end in
  TwitchClient_new (with_authProvider config provider).

(** The getter [cheermoteDefaults] *)
Definition cheermoteDefaults {P : Type} (this : TwitchClient P)
  : TwitchCheermoteConfig :=
  cheermotes (_config this).

(** [_getAuthProvider] *)
Definition _getAuthProvider {P : Type} (this : TwitchClient P) : P :=
  authProvider (_config this).
End Constructor.
End Construction.

Arguments authProvider {H P} _.
Arguments preAuth {H P} _.
Arguments initialScopes {H P} _.
Arguments cheermotes {H P} _.
Arguments logLevel {H P} _.
Arguments given_authProvider {H P} _.
Arguments given_preAuth {H P} _.
Arguments given_initialScopes {H P} _.
Arguments given_cheermotes {H P} _.
Arguments given_logLevel {H P} _.
Arguments _config {H P} _.
Arguments _helixRateLimiter {H P} _.

(** An instance of the imported declarations, for running the
    constructor on concrete configurations. *)
Module SampleImports.
Inductive Background : Type := Dark | Light.
Inductive State : Type := Animated | Static.
Inductive Scale : Type := X1 | X2 | X4.
Record Refresh : Type := { clientSecret : string; refreshToken : string }.

#[export] Instance imported : Imported :=
  {| CheermoteBackground := Background; CheermoteState := State;
     CheermoteScale := Scale; RefreshConfig := Refresh;
     dark := Dark; animated := Animated; x1 := X1; CRITICAL := 0%Z |}.
End SampleImports.

(** *** Vocabulary of the further statements *)

Definition with_url (o : TwitchAPICallOptions) (u : string)
  : TwitchAPICallOptions :=
  {| url := u; type := type o; method := method o; query := query o;
     body := body o; jsonBody := jsonBody o; scope := scope o;
     version := version o |}.

Definition with_version (o : TwitchAPICallOptions) (v : option number)
  : TwitchAPICallOptions :=
  {| url := url o; type := type o; method := method o; query := query o;
     body := body o; jsonBody := jsonBody o; scope := scope o;
     version := v |}.

Definition with_jsonBody (o : TwitchAPICallOptions) (j : JSValue)
  : TwitchAPICallOptions :=
  {| url := url o; type := type o; method := method o; query := query o;
     body := body o; jsonBody := j; scope := scope o;
     version := version o |}.

Definition with_scope (o : TwitchAPICallOptions) (s : option string)
  : TwitchAPICallOptions :=
  {| url := url o; type := type o; method := method o; query := query o;
     body := body o; jsonBody := jsonBody o; scope := s;
     version := version o |}.

Definition is_fetch (e : Event) : bool :=
  match e with
  | EvFetch _ _ _ => true
  | _ => false
  end.

Definition is_limiter_request (e : Event) : bool :=
  match e with
  | EvLimiterRequest _ _ => true
  | _ => false
  end.

Definition is_getAccessToken (e : Event) : bool :=
  match e with
  | EvGetAccessToken _ _ => true
  | _ => false
  end.

(** How many events of a kind a log holds. *)
Definition count (kind : Event -> bool) (log : list Event) : nat :=
  List.length (filter kind log).

(** The error an event carries when the collaborator rejected. *)
Definition rejection (e : Event) : option Error :=
  match e with
  | EvFetch _ _ (Err x) | EvLimiterRequest _ (Err x)
  | EvGetAccessToken _ (Err x) | EvRefresh (Err x) => Some x
  | _ => None
  end.

(** The last event of a log and the last response received in it. *)
Definition last_event (log : list Event) : option Event :=
  List.last (map Some log) None.

Definition last_response (log : list Event) : option Response.t :=
  List.last (map Some (responses_of log)) None.

Section FirstDispatch.
Context {W : Type} (env : Env W).

(** The call of [callAPI] reaches its first dispatch: the provider gave
    the token [tok0], which was refreshed into [tok1] if it was expired
    and the provider can refresh, and is [tok1] itself otherwise; [w2] is
    the world and [before] the log at that point. *)
Definition reaches_dispatch (authProvider : AuthProvider.t)
           (o : TwitchAPICallOptions) (w0 : W)
           (tok0 tok1 : AccessToken.t) (w2 : W) (before : list Event) : Prop :=
  exists w1,
    authProvider_getAccessToken env (scope_argument o None) w0
      = (Ok (Some tok0), w1) /\
    if AccessToken.isExpired tok0 && AuthProvider.has_refresh authProvider
    then authProvider_refresh env w1 = (Ok tok1, w2) /\
         before = [EvGetAccessToken (scope_argument o None) (Ok (Some tok0));
                   EvRefresh (Ok tok1)]
    else tok1 = tok0 /\ w2 = w1 /\
         before = [EvGetAccessToken (scope_argument o None) (Ok (Some tok0))].
End FirstDispatch.

(** * Properties *)

(** ** Call builder *)

Lemma strip_leading_slash_slash (p : string) :
  strip_leading_slash (String "/" p) = p.
Proof. reflexivity. Qed.

Lemma strip_leading_slash_other (c : ascii) (p : string) :
  c <> "/"%char -> strip_leading_slash (String c p) = String c p.
Proof.
  intros Hc. unfold strip_leading_slash.
  destruct c as [[] [] [] [] [] [] [] []]; try reflexivity.
  exfalso. apply Hc. reflexivity.
Qed.

Section BuilderFacts.
Context `{Platform}.

Lemma request_url (o : TwitchAPICallOptions) (cid tok : option string) :
  fst (_callAPIRaw_request o cid tok) =
  let params := stringify (query o) (Some Repeat) in
  if truthy_string params
  then _getUrl (url o) (effective_type o) ++ "?" ++ params
  else _getUrl (url o) (effective_type o).
Proof.
  unfold _callAPIRaw_request.
  destruct (attach_body o _) as [b h]. reflexivity.
Qed.

Lemma request_headers (o : TwitchAPICallOptions) (cid tok : option string) :
  RequestInit.headers (snd (_callAPIRaw_request o cid tok)) =
  attach_authorization (effective_type o) tok
    (attach_client_id (effective_type o) cid
       (snd (attach_body o (Headers_new "Accept" (accept_header o))))).
Proof.
  unfold _callAPIRaw_request.
  destruct (attach_body o _) as [b h]. reflexivity.
Qed.

Lemma request_body (o : TwitchAPICallOptions) (cid tok : option string) :
  RequestInit.body (snd (_callAPIRaw_request o cid tok)) =
  fst (attach_body o (Headers_new "Accept" (accept_header o))).
Proof.
  unfold _callAPIRaw_request.
  destruct (attach_body o _) as [b h]. reflexivity.
Qed.
End BuilderFacts.

(** Every branch of the builder, for rewriting a header lookup into a
    computation on a list with concrete names. *)
Ltac builder_cases :=
  unfold attach_authorization, attach_client_id, attach_body,
    Headers_append, Headers_new;
  repeat match goal with
         | |- context [truthy_string ?s] => destruct (truthy_string s) eqn:?
         | |- context [truthy ?v] => destruct (truthy v) eqn:?
         | |- context [match ?x with _ => _ end] => destruct x eqn:?
         end;
  simpl in *; try reflexivity; try discriminate; try congruence.

Lemma append_empty_r (s : string) : s ++ "" = s.
Proof.
  induction s as [| c s IH]; simpl; [reflexivity | now rewrite IH].
Qed.

Section BuilderClaims.
Context `{Platform}.

(** C7. The URL handed to the transport is the path resolved by the
    endpoint group of the descriptor, followed by the query string when
    there is one: against the Helix API root for the Helix group, against
    the Kraken API root for the Kraken group (and for a descriptor
    without a group), against the token issuance root for the auth group,
    each time with one leading slash of the path removed, and the path as
    it is for the custom group. *)
Theorem request_url_resolution (o : TwitchAPICallOptions)
        (cid tok : option string) :
  let params := stringify (query o) (Some Repeat) in
  let suffix :=
    match params with
    | EmptyString => ""
    | String _ _ => "?" ++ params
    end in
  let stripped (u : string) :=
    match u with
    | String "/"%char rest => rest
    | other => other
    end in
  (forall u,
      _getUrl u Helix = "https://api.twitch.tv/helix/" ++ stripped u /\
      _getUrl u Kraken = "https://api.twitch.tv/kraken/" ++ stripped u /\
      _getUrl u Auth = "https://id.twitch.tv/oauth2/" ++ stripped u /\
      _getUrl u Custom = u) /\
  fst (_callAPIRaw_request o cid tok) =
    match type o with
    | Some Helix =>
        "https://api.twitch.tv/helix/" ++ stripped (url o) ++ suffix
    | Some Kraken | None =>
        "https://api.twitch.tv/kraken/" ++ stripped (url o) ++ suffix
    | Some Auth =>
        "https://id.twitch.tv/oauth2/" ++ stripped (url o) ++ suffix
    | Some Custom => url o ++ suffix
    end.
Proof.
  intros params suffix stripped. split.
  - intros u. repeat split.
  - rewrite request_url. fold params. unfold suffix, effective_type.
    change strip_leading_slash with stripped.
    destruct (type o) as [[] |]; destruct params; simpl;
      rewrite ?append_empty_r; reflexivity.
Qed.

(** The [Accept] header is the first header and is never overwritten. *)
Lemma request_accept (o : TwitchAPICallOptions) (cid tok : option string) :
  Headers_get (RequestInit.headers (snd (_callAPIRaw_request o cid tok)))
              "Accept" = Some (accept_header o).
Proof.
  rewrite request_headers. builder_cases.
Qed.

(** C4, as stated, fails: a descriptor of the Kraken group whose version
    is 0 is given the media type of version 5, not of version 0. *)
Lemma accept_version_zero_counterexample :
  let o := {| url := "user"; type := Some Kraken; method := None;
              query := None; body := None; jsonBody := JUndefined;
              scope := None; version := Some 0%float |} in
  let accept :=
    Headers_get
      (RequestInit.headers
         (snd (_callAPIRaw_request (H := Sample.platform) o None None)))
      "Accept" in
  accept = Some "application/vnd.twitchtv.v5+json" /\
  accept <> Some "application/vnd.twitchtv.v0+json".
Proof.
  split; vm_compute; [reflexivity | discriminate].
Qed.

(** C4, amended. For the Kraken group (also when the group is omitted)
    the [Accept] header is the vendor media type of the descriptor's
    version as a template literal prints it, and of version 5 when the
    version is omitted, a zero or NaN; version 7 gives the media type of
    version 7. For the Helix and auth groups (and for the custom group)
    the header is [application/json]. *)
Theorem accept_header_by_group (o : TwitchAPICallOptions)
        (cid tok : option string) :
  let accept :=
    Headers_get (RequestInit.headers (snd (_callAPIRaw_request o cid tok)))
                "Accept" in
  let media (v : number) :=
    Some ("application/vnd.twitchtv.v" ++ Number_toString v ++ "+json") in
  match type o with
  | Some Kraken | None =>
      match version o with
      | None => accept = Some "application/vnd.twitchtv.v5+json"
      | Some v =>
          match FloatOps.Prim2SF v with
          | SpecFloat.S754_zero _ | SpecFloat.S754_nan =>
              accept = Some "application/vnd.twitchtv.v5+json"
          | SpecFloat.S754_infinity _ | SpecFloat.S754_finite _ _ _ =>
              accept = media v
          end
      end
  | Some Helix | Some Auth | Some Custom => accept = Some "application/json"
  end /\
  media 5%float = Some "application/vnd.twitchtv.v5+json" /\
  media 7%float = Some "application/vnd.twitchtv.v7+json" /\
  media 3%float = Some "application/vnd.twitchtv.v3+json".
Proof.
  intros accept media. unfold accept. rewrite request_accept.
  split; [| repeat split; vm_compute; reflexivity].
  unfold accept_header, effective_type, version_or_default, Number_truthy, media.
  destruct (type o) as [[] |]; simpl; try reflexivity;
    (destruct (version o) as [v |]; [| reflexivity]);
    destruct (FloatOps.Prim2SF v) as [sign | sign | | sign m e];
    reflexivity.
Qed.

(** C5, as stated, fails: a descriptor whose only body is the JSON value
    [false] is sent without a body and without a content type. *)
Lemma falsy_json_body_counterexample :
  let o := {| url := "user"; type := Some Kraken; method := Some POST;
              query := None; body := None; jsonBody := JBool false;
              scope := None; version := None |} in
  let request :=
    snd (_callAPIRaw_request (H := Sample.platform) o None None) in
  JSON_stringify (Platform := Sample.platform) (JBool false) = "false" /\
  RequestInit.body request = None /\
  Headers_values (RequestInit.headers request) "Content-Type" = [].
Proof.
  repeat split.
Qed.

(** C5, amended. A form body is URL-encoded and sent with the form
    content type, whether or not a JSON body is given too. Without a form
    body, a truthy JSON body is serialized and sent with the JSON content
    type, and a falsy one ([undefined], [null], [false], [0], the empty
    string) is not sent. At most one content type is set. *)
Theorem request_body_rules (o : TwitchAPICallOptions)
        (cid tok : option string) :
  let request := snd (_callAPIRaw_request o cid tok) in
  let content_types :=
    Headers_values (RequestInit.headers request) "Content-Type" in
  match body o with
  | Some form =>
      RequestInit.body request = Some (stringify (Some form) None) /\
      content_types = ["application/x-www-form-urlencoded"]
  | None =>
      if truthy (jsonBody o)
      then RequestInit.body request = Some (JSON_stringify (jsonBody o)) /\
           content_types = ["application/json"]
      else RequestInit.body request = None /\ content_types = []
  end.
Proof.
  intros request content_types. unfold content_types, request.
  rewrite request_body, request_headers.
  unfold Headers_values.
  destruct (body o) as [form |] eqn:Hbody.
  - split; [unfold attach_body; now rewrite Hbody |].
    builder_cases.
  - destruct (truthy (jsonBody o)) eqn:Hjson.
    + split; [unfold attach_body; now rewrite Hbody, Hjson |].
      builder_cases.
    + split; [unfold attach_body; now rewrite Hbody, Hjson |].
      builder_cases.
Qed.

(** C6, as stated, fails: a client identifier and an access token that
    are given as the empty string are not sent; the request of the Kraken
    group then carries the [Accept] header only. *)
Lemma empty_identification_counterexample :
  let o := {| url := "user"; type := Some Kraken; method := None;
              query := None; body := None; jsonBody := JUndefined;
              scope := None; version := None |} in
  let headers :=
    RequestInit.headers
      (snd (_callAPIRaw_request (H := Sample.platform) o (Some "") (Some ""))) in
  headers = [("Accept", "application/vnd.twitchtv.v5+json")] /\
  Headers_get headers "Client-ID" = None /\
  Headers_get headers "Authorization" = None.
Proof.
  repeat split.
Qed.

(** C6, amended. The [Client-ID] header carries the client identifier
    when one is given, is not the empty string and the group is not the
    auth group, and is absent otherwise. The [Authorization] header
    carries the access token when one is given and is not the empty
    string, with the scheme [Bearer] for the Helix group and [OAuth] for
    every other group, and is absent otherwise. *)
Theorem request_identification (o : TwitchAPICallOptions)
        (cid tok : option string) :
  let headers := RequestInit.headers (snd (_callAPIRaw_request o cid tok)) in
  Headers_get headers "Client-ID" =
    match cid, type o with
    | Some (String c rest), (Some Kraken | Some Helix | Some Custom | None) =>
        Some (String c rest)
    | Some (String _ _), Some Auth => None
    | Some EmptyString, _ | None, _ => None
    end /\
  Headers_get headers "Authorization" =
    match tok, type o with
    | Some (String c rest), Some Helix => Some ("Bearer " ++ String c rest)
    | Some (String c rest), (Some Kraken | Some Auth | Some Custom | None) =>
        Some ("OAuth " ++ String c rest)
    | Some EmptyString, _ | None, _ => None
    end.
Proof.
  intros headers. unfold headers. rewrite request_headers.
  unfold effective_type. split.
  - destruct cid as [[| c rest] |]; destruct (type o) as [[] |];
      builder_cases.
  - destruct tok as [[| c rest] |]; destruct (type o) as [[] |];
      builder_cases.
Qed.

End BuilderClaims.

(** C7, at the path [/users] of each group. *)
Lemma request_url_resolution_witness :
  let built (ty : option TwitchAPICallType) :=
    fst (_callAPIRaw_request (H := Sample.platform)
           {| url := "/users"; type := ty; method := None;
              query := Some [("login", QString "alice")]; body := None;
              jsonBody := JUndefined; scope := None; version := None |}
           None None) in
  built (Some Helix) = "https://api.twitch.tv/helix/users?login=alice" /\
  built (Some Kraken) = "https://api.twitch.tv/kraken/users?login=alice" /\
  built (Some Auth) = "https://id.twitch.tv/oauth2/users?login=alice" /\
  built (Some Custom) = "/users?login=alice".
Proof.
  intros built. unfold built. split; [| split; [| split]];
    rewrite (proj2 (request_url_resolution (H := Sample.platform) _ None None));
    reflexivity.
Defined.

(** C4, at the versions 7, NaN and 10^21 of the Kraken group and at a
    Helix descriptor. *)
Lemma accept_header_by_group_witness :
  let accept (ty : TwitchAPICallType) (v : option number) :=
    Headers_get
      (RequestInit.headers
         (snd (_callAPIRaw_request (H := Sample.platform)
                 {| url := "user"; type := Some ty; method := None;
                    query := None; body := None; jsonBody := JUndefined;
                    scope := None; version := v |} None None)))
      "Accept" in
  accept Kraken (Some 7%float) = Some "application/vnd.twitchtv.v7+json" /\
  accept Kraken (Some nan) = Some "application/vnd.twitchtv.v5+json" /\
  accept Kraken (Some 1e21%float) = Some "application/vnd.twitchtv.v1e+21+json" /\
  accept Helix (Some 7%float) = Some "application/json".
Proof.
  intros accept. unfold accept. split; [| split; [| split]].
  - exact (proj1 (accept_header_by_group (H := Sample.platform)
                    {| url := "user"; type := Some Kraken; method := None;
                       query := None; body := None; jsonBody := JUndefined;
                       scope := None; version := Some 7%float |} None None)).
  - exact (proj1 (accept_header_by_group (H := Sample.platform)
                    {| url := "user"; type := Some Kraken; method := None;
                       query := None; body := None; jsonBody := JUndefined;
                       scope := None; version := Some nan |} None None)).
  - exact (proj1 (accept_header_by_group (H := Sample.platform)
                    {| url := "user"; type := Some Kraken; method := None;
                       query := None; body := None; jsonBody := JUndefined;
                       scope := None; version := Some 1e21%float |} None None)).
  - exact (proj1 (accept_header_by_group (H := Sample.platform)
                    {| url := "user"; type := Some Helix; method := None;
                       query := None; body := None; jsonBody := JUndefined;
                       scope := None; version := Some 7%float |} None None)).
Defined.

(** C6, at a client identifier and a token for each group. *)
Lemma request_identification_witness :
  let headers (ty : TwitchAPICallType) :=
    RequestInit.headers
      (snd (_callAPIRaw_request (H := Sample.platform)
              {| url := "user"; type := Some ty; method := None;
                 query := None; body := None; jsonBody := JUndefined;
                 scope := None; version := None |}
              (Some "abc123") (Some "token"))) in
  Headers_get (headers Helix) "Client-ID" = Some "abc123" /\
  Headers_get (headers Helix) "Authorization" = Some "Bearer token" /\
  Headers_get (headers Kraken) "Authorization" = Some "OAuth token" /\
  Headers_get (headers Auth) "Client-ID" = None /\
  Headers_get (headers Auth) "Authorization" = Some "OAuth token".
Proof.
  intros headers. unfold headers. split; [| split; [| split; [| split]]].
  - exact (proj1 (request_identification (H := Sample.platform)
                    {| url := "user"; type := Some Helix; method := None;
                       query := None; body := None; jsonBody := JUndefined;
                       scope := None; version := None |}
                    (Some "abc123") (Some "token"))).
  - exact (proj2 (request_identification (H := Sample.platform)
                    {| url := "user"; type := Some Helix; method := None;
                       query := None; body := None; jsonBody := JUndefined;
                       scope := None; version := None |}
                    (Some "abc123") (Some "token"))).
  - exact (proj2 (request_identification (H := Sample.platform)
                    {| url := "user"; type := Some Kraken; method := None;
                       query := None; body := None; jsonBody := JUndefined;
                       scope := None; version := None |}
                    (Some "abc123") (Some "token"))).
  - exact (proj1 (request_identification (H := Sample.platform)
                    {| url := "user"; type := Some Auth; method := None;
                       query := None; body := None; jsonBody := JUndefined;
                       scope := None; version := None |}
                    (Some "abc123") (Some "token"))).
  - exact (proj2 (request_identification (H := Sample.platform)
                    {| url := "user"; type := Some Auth; method := None;
                       query := None; body := None; jsonBody := JUndefined;
                       scope := None; version := None |}
                    (Some "abc123") (Some "token"))).
Defined.

(** Numbers as a template literal prints them: integers without a point,
    the shortest digits that read back as the same number, and the
    exponent form from 10^21 on and below 10^-6. *)
Example Number_toString_examples :
  map Number_toString
      [5; 7; 1.5; 0.1; (-12); 100; 123456789012345680000; 1e21; 1.5e300;
       0.000001; 1e-7; 5e-324; 0.30000000000000004; infinity; nan; (-0)]%float
  = ["5"; "7"; "1.5"; "0.1"; "-12"; "100"; "123456789012345680000"; "1e+21";
     "1.5e+300"; "0.000001"; "1e-7"; "5e-324"; "0.30000000000000004";
     "Infinity"; "NaN"; "0"].
Proof. vm_compute. reflexivity. Qed.

(** Only one leading slash is removed from a path. *)
Example double_slash_example :
  _getUrl "//users" Helix = "https://api.twitch.tv/helix//users".
Proof. reflexivity. Qed.

(** The builder on concrete descriptors. *)
Example helix_request_example :
  _callAPIRaw_request (H := Sample.platform)
    {| url := "/users"; type := Some Helix; method := None;
       query := Some [("login", QArray ["alice"; "bob"]);
                      ("after", QUndefined)];
       body := None; jsonBody := JUndefined; scope := None;
       version := Some 7%float |}
    (Some "abc123") (Some "token")
  = ("https://api.twitch.tv/helix/users?login=alice&login=bob",
     {| RequestInit.method := GET;
        RequestInit.headers :=
          [("Accept", "application/json"); ("Client-ID", "abc123");
           ("Authorization", "Bearer token")];
        RequestInit.body := None |}).
Proof. reflexivity. Qed.

Example auth_request_example :
  _callAPIRaw_request (H := Sample.platform)
    {| url := "token"; type := Some Auth; method := Some POST;
       query := Some [("grant_type", QString "client_credentials")];
       body := Some [("a", QString "1")]; jsonBody := JArray [JNumber 1];
       scope := None; version := None |}
    (Some "abc123") None
  = ("https://id.twitch.tv/oauth2/token?grant_type=client_credentials",
     {| RequestInit.method := POST;
        RequestInit.headers :=
          [("Accept", "application/json");
           ("Content-Type", "application/x-www-form-urlencoded")];
        RequestInit.body := Some "a=1" |}).
Proof. reflexivity. Qed.

(** ** Response decoder *)

Section DecoderFacts.
Context `{Platform}.

Lemma ok_in_range (response : Response.t) :
  Response.ok response = true <->
  (200 <= Response.status response <= 299)%Z.
Proof.
  unfold Response.ok. rewrite andb_true_iff, !Z.leb_le. tauto.
Qed.

Lemma ok_out_of_range (response : Response.t) :
  Response.ok response = false <->
  (Response.status response < 200 \/ 299 < Response.status response)%Z.
Proof.
  unfold Response.ok. rewrite andb_false_iff, !Z.leb_gt. tauto.
Qed.

Lemma transformResponse_not_ok (response : Response.t) :
  Response.ok response = false ->
  _transformResponse response =
  match JSON_parse (Response.text response) with
  | Some parsed =>
      Err (HTTPStatusCodeError (Response.status response)
                               (Response.statusText response) parsed)
  | None => Err SyntaxError
  end.
Proof.
  intros Hok. unfold _transformResponse, Response_json. rewrite Hok. simpl.
  destruct (JSON_parse (Response.text response)); reflexivity.
Qed.

(** C2. A response whose status is outside 200-299 is decoded into a
    rejection: with the HTTP status error that carries the status, the
    status text and the parsed body when the body is JSON, and with the
    parser's own error when it is not. *)
Theorem transformResponse_error_status (response : Response.t) :
  (Response.status response < 200 \/ 299 < Response.status response)%Z ->
  _transformResponse response =
  match JSON_parse (Response.text response) with
  | Some parsed =>
      Err (HTTPStatusCodeError (Response.status response)
                               (Response.statusText response) parsed)
  | None => Err SyntaxError
  end.
Proof.
  intros Hrange. apply transformResponse_not_ok.
  apply ok_out_of_range. exact Hrange.
Qed.

(** C3. A response of status 204, and a response of a status in 200-299
    with an empty body, are decoded into [undefined] without an error;
    any other response of a status in 200-299 is decoded by parsing its
    body, and a body that is not JSON is rejected with the parser's
    error. *)
Theorem transformResponse_success (response : Response.t) :
  (Response.status response = 204%Z ->
   _transformResponse response = Ok JUndefined) /\
  ((200 <= Response.status response <= 299)%Z ->
   Response.text response = "" ->
   _transformResponse response = Ok JUndefined) /\
  ((200 <= Response.status response <= 299)%Z ->
   Response.status response <> 204%Z ->
   Response.text response <> "" ->
   _transformResponse response =
   match JSON_parse (Response.text response) with
   | Some v => Ok v
   | None => Err SyntaxError
   end).
Proof.
  unfold _transformResponse. repeat split.
  - intros H204.
    assert (Hok : Response.ok response = true)
      by (apply ok_in_range; lia).
    rewrite Hok. simpl. rewrite H204. reflexivity.
  - intros Hrange Htext. apply ok_in_range in Hrange.
    rewrite Hrange, Htext. simpl.
    destruct (Response.status response =? 204)%Z; reflexivity.
  - intros Hrange H204 Htext. apply ok_in_range in Hrange.
    rewrite Hrange. simpl.
    apply Z.eqb_neq in H204. rewrite H204.
    destruct (Response.text response) as [| c rest]; [congruence |].
    reflexivity.
Qed.

End DecoderFacts.

(** C2, at a response of status 404 with an error payload. *)
Lemma transformResponse_error_status_witness :
  (299 < 404)%Z /\
  _transformResponse (H := Sample.platform)
    (Sample.response 404 "Not Found" (Sample.error_body 404 "no such user")) =
  Err (HTTPStatusCodeError 404 "Not Found"
         (JObject [("status", JNumber 404);
                   ("message", JString "no such user")])).
Proof.
  split; [lia |].
  rewrite (transformResponse_error_status (H := Sample.platform)).
  - reflexivity.
  - right. simpl. lia.
Defined.

(** C3, at three responses: no content, an empty body, a JSON array. *)
Lemma transformResponse_success_witness :
  _transformResponse (H := Sample.platform)
    (Sample.response 204 "No Content" "ignored") = Ok JUndefined /\
  _transformResponse (H := Sample.platform)
    (Sample.response 200 "OK" "") = Ok JUndefined /\
  _transformResponse (H := Sample.platform)
    (Sample.response 200 "OK" "[1,2]") = Ok (JArray [JNumber 1; JNumber 2]).
Proof.
  split; [| split].
  - apply (proj1 (transformResponse_success (H := Sample.platform) _)).
    reflexivity.
  - apply (proj1 (proj2 (transformResponse_success (H := Sample.platform) _)));
      [simpl; lia | reflexivity].
  - rewrite (proj2 (proj2 (transformResponse_success (H := Sample.platform)
                             (Sample.response 200 "OK" "[1,2]"))));
      [reflexivity | simpl; lia | simpl; lia | discriminate].
Defined.

(** ** Call pipeline *)

Section PipelineFacts.
Context `{Platform} {W : Type} (env : Env W).

(** [_callAPIInternal] is one interaction with one collaborator. *)
Lemma callAPIInternal_await (o : TwitchAPICallOptions)
      (cid tok : option string) :
  _callAPIInternal env o cid tok =
  await (dispatch_step env o cid tok) (dispatch_event o cid tok).
Proof.
  unfold _callAPIInternal, dispatch_step, dispatch_event, _callAPIRaw.
  destruct (type o) as [[] |];
    try reflexivity; destruct (_callAPIRaw_request o cid tok); reflexivity.
Qed.

Lemma await_run {A} (step : W -> result A * W) (ev : result A -> Event)
      (w w' : W) (log : list Event) (r : result A) :
  step w = (r, w') ->
  await step ev (w, log) = (r, (w', (log ++ [ev r])%list)).
Proof.
  intros Hstep. unfold await. rewrite Hstep. reflexivity.
Qed.

(** The [try]/[catch] block shared by the two [getTokenInfo]. *)
Lemma catch_unauthorized {A B} (inner : Async W A) (wrap : A -> B) :
  translates_unauthorized inner
    (try (data <- inner ;; ret (wrap data))
     catch e => (if is_unauthorized e then throw InvalidTokenError else throw e))
    wrap.
Proof.
  intros s. unfold try_catch, bind, ret, throw. repeat split.
  - intros text parsed s' Hinner. rewrite Hinner. reflexivity.
  - intros e s' Hinner Hother. rewrite Hinner.
    destruct e as [code text parsed | | |]; try reflexivity.
    simpl. destruct (code =? 401)%Z eqn:Hcode; [| reflexivity].
    apply Z.eqb_eq in Hcode. subst code.
    exfalso. apply (Hother text parsed). reflexivity.
  - intros a s' Hinner. rewrite Hinner. reflexivity.
Qed.

(** C8. Both token introspection calls, the static one and the one of an
    instance, turn a rejection of the [validate] call with an HTTP status
    error of status 401 into [InvalidTokenError], which is not an HTTP
    status error; every other rejection is passed on as it is, and a
    result is wrapped into a [TokenInfo]. *)
Theorem getTokenInfo_invalid_token (authProvider : AuthProvider.t)
        (tok : string) (cid : option string) :
  translates_unauthorized
    (static_callAPI env validate_options cid (Some tok))
    (static_getTokenInfo env tok cid) TokenInfo_new /\
  translates_unauthorized
    (callAPI env authProvider validate_options)
    (getTokenInfo env authProvider) TokenInfo_new /\
  (forall code text parsed,
      InvalidTokenError <> HTTPStatusCodeError code text parsed).
Proof.
  split; [| split].
  - unfold static_getTokenInfo. apply catch_unauthorized.
  - unfold getTokenInfo. apply catch_unauthorized.
  - intros code text parsed. discriminate.
Qed.


(** The call of a provider that has no token is one unauthenticated
    dispatch through the transport, decoded as it comes: nothing is
    refreshed and nothing is retried, whatever the answer. *)
Lemma callAPI_without_token (authProvider : AuthProvider.t)
      (o : TwitchAPICallOptions) (w0 w1 : W) :
  authProvider_getAccessToken env (scope_argument o None) w0 = (Ok None, w1) ->
  let cid := Some (AuthProvider.clientId authProvider) in
  let request := _callAPIRaw_request o cid None in
  let '(r, w2) := fetch env (fst request) (snd request) w1 in
  run (callAPI env authProvider o) w0 =
    (match r with
     | Ok response => _transformResponse response
     | Err e => Err e
     end,
     (w2, [EvGetAccessToken (scope_argument o None) (Ok None);
           EvFetch (fst request) (snd request) r])).
Proof.
  intros Hget cid request.
  destruct (fetch env (fst request) (snd request) w1) as [r w2] eqn:Hfetch.
  unfold run, callAPI, bind, await_getAccessToken.
  rewrite (await_run _ _ _ _ _ _ Hget).
  unfold static_callAPI, bind, _callAPIRaw. fold cid. fold request.
  destruct request as [u init] eqn:Hrequest. simpl in Hfetch.
  rewrite (await_run _ _ _ _ _ _ Hfetch).
  destruct r; reflexivity.
Qed.

End PipelineFacts.

(** C8, at a token the introspection endpoint answers with 401. *)
Lemma getTokenInfo_invalid_token_witness :
  let script :=
    {| Sample.tokens := []; Sample.refreshes := [];
       Sample.responses :=
         [Ok (Sample.response 401 "Unauthorized"
                (Sample.error_body 401 "invalid access token"))] |} in
  fst (run (static_getTokenInfo (H := Sample.platform) Sample.env "stale" (Some "abc123")) script)
  = Err InvalidTokenError.
Proof.
  intros script. unfold run.
  destruct (getTokenInfo_invalid_token (H := Sample.platform) Sample.env
              Sample.refreshable "stale" (Some "abc123"))
    as [Hstatic _].
  destruct (Hstatic (script, [])) as [H401 _].
  erewrite H401; reflexivity.
Defined.



(** A second 401 in a row is decoded into a rejection: the log holds one
    refresh and two dispatches, and the third scripted response is never
    asked for. *)
Example callAPI_second_unauthorized_example :
  let w0 :=
    {| Sample.tokens := [Ok (Some (Sample.token "old"));
                         Ok (Some (Sample.token "new"))];
       Sample.refreshes := [Ok (Sample.token "new");
                            Ok (Sample.token "newer")];
       Sample.responses :=
         [Ok (Sample.response 401 "Unauthorized" "{}");
          Ok (Sample.response 401 "Unauthorized" "{}");
          Ok (Sample.response 200 "OK" "[1,2]")] |} in
  let outcome :=
    run (callAPI (H := Sample.platform) Sample.env Sample.refreshable
           (Sample.call None "user")) w0 in
  fst outcome = Err (HTTPStatusCodeError 401 "Unauthorized" (JObject [])) /\
  List.length (filter is_refresh (snd (snd outcome))) = 1%nat /\
  List.length (filter is_dispatch (snd (snd outcome))) = 2%nat /\
  List.length (Sample.responses (fst (snd outcome))) = 1%nat.
Proof. repeat split. Qed.

Section OmittedGroup.
Context `{Platform} {W : Type} (env : Env W).

Lemma request_authorization (o : TwitchAPICallOptions)
      (cid tok : option string) :
  Headers_get (RequestInit.headers (snd (_callAPIRaw_request o cid tok)))
              "Authorization" =
  match tok with
  | Some t =>
      if truthy_string t
      then Some ((if TwitchAPICallType_eqb (effective_type o) Helix
                  then "Bearer" else "OAuth") ++ " " ++ t)
      else None
  | None => None
  end.
Proof.
  rewrite request_headers.
  destruct tok as [t |]; destruct (effective_type o); builder_cases.
Qed.

(** C10. A descriptor without an endpoint group builds the very request
    of the same descriptor with the Kraken group: the URL is under the
    Kraken API root, the [Accept] header is the Kraken vendor media type,
    and an access token, when present, is sent with the [OAuth] scheme.
    Its dispatch is the one interaction with the transport; the rate
    limiter is not involved. *)
Theorem omitted_type_is_kraken (o : TwitchAPICallOptions)
        (cid tok : option string) (w : W) (log : list Event) :
  let omitted := with_type o None in
  let kraken := with_type o (Some Kraken) in
  let request := _callAPIRaw_request omitted cid tok in
  let params := stringify (query o) (Some Repeat) in
  _callAPIRaw_request omitted cid tok = _callAPIRaw_request kraken cid tok /\
  fst request =
    "https://api.twitch.tv/kraken/" ++ strip_leading_slash (url o)
      ++ (if truthy_string params then "?" ++ params else "") /\
  Headers_get (RequestInit.headers (snd request)) "Accept" =
    Some (vendor_media_type (version_or_default o)) /\
  Headers_get (RequestInit.headers (snd request)) "Authorization" =
    match tok with
    | Some t => if truthy_string t then Some ("OAuth " ++ t) else None
    | None => None
    end /\
  _callAPIInternal env omitted cid tok (w, log) =
    (let '(r, w') := fetch env (fst request) (snd request) w in
     (r, (w', (log ++ [EvFetch (fst request) (snd request) r])%list))).
Proof.
  intros omitted kraken request params.
  split; [reflexivity |].
  split.
  { unfold request. rewrite request_url. simpl. fold params.
    destruct (truthy_string params); [reflexivity |].
    now rewrite append_empty_r. }
  split.
  { unfold request. rewrite request_accept. reflexivity. }
  split.
  { unfold request. rewrite request_authorization.
    destruct tok as [t |]; reflexivity. }
  rewrite callAPIInternal_await.
  unfold await, dispatch_step, dispatch_event. simpl. fold request.
  destruct (fetch env (fst request) (snd request) w). reflexivity.
Qed.

(** A call of the Helix group is handed to the rate limiter and does not
    touch the transport. *)
Lemma helix_goes_through_limiter (o : TwitchAPICallOptions)
      (cid tok : option string) (w : W) (log : list Event) :
  let helix := with_type o (Some Helix) in
  let req := {| options := helix; clientId := cid; accessToken := tok |} in
  _callAPIInternal env helix cid tok (w, log) =
    (let '(r, w') := helixRateLimiter_request env req w in
     (r, (w', (log ++ [EvLimiterRequest req r])%list))).
Proof.
  reflexivity.
Qed.

End OmittedGroup.

(** ** The Helix rate limiter *)

Section LimiterFacts.
Import HelixRateLimiter.
Local Open Scope nat_scope.
Local Open Scope list_scope.








End LimiterFacts.



(** * Further properties *)

(** ** Call builder and response decoder *)

Section BuilderAndDecoder.
Context `{Platform}.

Lemma getUrl_leading_slash (p : string) (ty : TwitchAPICallType) :
  ty <> Custom -> strip_leading_slash p = p ->
  _getUrl (String "/" p) ty = _getUrl p ty.
Proof.
  intros Hty Hp. destruct ty; simpl; try rewrite Hp; try reflexivity.
  now elim Hty.
Qed.

(** X1. The headers of a built request have pairwise distinct names,
    taken from [Accept], [Content-Type], [Client-ID] and
    [Authorization]; [Accept] is always there and comes first. *)
Theorem request_headers_distinct (o : TwitchAPICallOptions)
        (cid tok : option string) :
  let headers := RequestInit.headers (snd (_callAPIRaw_request o cid tok)) in
  NoDup (map fst headers) /\
  hd_error headers = Some ("Accept", accept_header o) /\
  (forall name, In name (map fst headers) ->
                In name ["Accept"; "Content-Type"; "Client-ID"; "Authorization"]).
Proof.
  intros headers. unfold headers. rewrite request_headers.
  unfold attach_authorization, attach_client_id, attach_body,
    Headers_append, Headers_new.
  destruct tok as [t |]; destruct cid as [c |]; destruct (body o);
    try destruct (truthy_string t); try destruct (truthy_string c);
    destruct (truthy (jsonBody o));
    destruct (TwitchAPICallType_eqb (effective_type o) Auth);
    simpl; (split; [| split; [reflexivity | intros name; simpl; tauto]]);
    repeat (constructor; [simpl; intuition discriminate |]); constructor.
Qed.

(** X2. For every group but the custom one, a path with one leading
    slash builds the same request as the path without it. *)
Theorem leading_slash_is_optional (o : TwitchAPICallOptions) (p : string)
        (cid tok : option string) :
  effective_type o <> Custom ->
  strip_leading_slash p = p ->
  _callAPIRaw_request (with_url o (String "/" p)) cid tok =
  _callAPIRaw_request (with_url o p) cid tok.
Proof.
  intros Hty Hp.
  unfold _callAPIRaw_request.
  change (effective_type (with_url o (String "/" p))) with (effective_type o).
  change (effective_type (with_url o p)) with (effective_type o).
  change (url (with_url o (String "/" p))) with (String "/" p).
  change (url (with_url o p)) with p.
  rewrite (getUrl_leading_slash p (effective_type o) Hty Hp).
  reflexivity.
Qed.

(** X3. The fields the descriptor documents as ignored are ignored: a
    JSON body when a form body is given, and the version for every group
    but Kraken. The scope never reaches the request. *)
Theorem ignored_fields (o : TwitchAPICallOptions) (cid tok : option string) :
  (forall j, body o <> None ->
             _callAPIRaw_request (with_jsonBody o j) cid tok =
             _callAPIRaw_request o cid tok) /\
  (forall v, effective_type o <> Kraken ->
             _callAPIRaw_request (with_version o v) cid tok =
             _callAPIRaw_request o cid tok) /\
  (forall s, _callAPIRaw_request (with_scope o s) cid tok =
             _callAPIRaw_request o cid tok).
Proof.
  split; [| split].
  - intros j Hbody. unfold _callAPIRaw_request, attach_body. simpl.
    destruct (body o) as [form |]; [reflexivity | now elim Hbody].
  - intros v Hty. unfold _callAPIRaw_request, accept_header.
    change (effective_type (with_version o v)) with (effective_type o).
    destruct (effective_type o); try reflexivity. now elim Hty.
  - intros s. reflexivity.
Qed.

(** X4. What the decoder answers tells the status apart: a value comes
    only from a status in 200-299; an HTTP status error only from a status
    outside, and it then carries that status, the status text and the
    parsed body; the parser's error only from a body that is not JSON.
    The decoder raises no other error. *)
Theorem transformResponse_classifies (response : Response.t) :
  match _transformResponse response with
  | Ok _ => (200 <= Response.status response <= 299)%Z
  | Err (HTTPStatusCodeError code text parsed) =>
      (Response.status response < 200 \/ 299 < Response.status response)%Z /\
      code = Response.status response /\
      text = Response.statusText response /\
      JSON_parse (Response.text response) = Some parsed
  | Err SyntaxError => JSON_parse (Response.text response) = None
  | Err InvalidTokenError | Err (ExternalError _) => False
  end.
Proof.
  unfold _transformResponse, Response_json.
  destruct (Response.ok response) eqn:Hok; simpl.
  - apply ok_in_range in Hok.
    destruct (Response.status response =? 204)%Z; [exact Hok |].
    destruct (truthy_string (Response.text response)); simpl; [| exact Hok].
    destruct (JSON_parse (Response.text response)); [exact Hok | reflexivity].
  - apply ok_out_of_range in Hok.
    destruct (JSON_parse (Response.text response)) eqn:Hparse;
      [repeat split; assumption | reflexivity].
Qed.

End BuilderAndDecoder.

(** X2, at the path [users] of the Helix group. *)
Lemma leading_slash_is_optional_witness :
  _callAPIRaw_request (H := Sample.platform)
    (with_url (Sample.call (Some Helix) "") "/users") (Some "abc123") None =
  _callAPIRaw_request (H := Sample.platform)
    (with_url (Sample.call (Some Helix) "") "users") (Some "abc123") None.
Proof.
  apply (leading_slash_is_optional (H := Sample.platform));
    [discriminate | reflexivity].
Defined.

(** X3, at a descriptor with a form body and at a Helix descriptor. *)
Lemma ignored_fields_witness :
  let form := {| url := "token"; type := Some Auth; method := Some POST;
                 query := None; body := Some [("a", QString "1")];
                 jsonBody := JUndefined; scope := None; version := None |} in
  let helix := Sample.call (Some Helix) "users" in
  _callAPIRaw_request (H := Sample.platform)
    (with_jsonBody form (JArray [JNumber 1])) None None =
  _callAPIRaw_request (H := Sample.platform) form None None /\
  _callAPIRaw_request (H := Sample.platform)
    (with_version helix (Some 3%float)) None None =
  _callAPIRaw_request (H := Sample.platform) helix None None.
Proof.
  intros form helix. split.
  - apply (proj1 (ignored_fields (H := Sample.platform) form None None)).
    discriminate.
  - apply (proj1 (proj2 (ignored_fields (H := Sample.platform) helix None None))).
    discriminate.
Defined.

(** ** Call pipeline *)

Section PipelineInvariants.
Context `{Platform} {W : Type} (env : Env W).

Lemma callAPIRaw_await (o : TwitchAPICallOptions) (cid tok : option string) :
  _callAPIRaw env o cid tok =
  await (fetch env (fst (_callAPIRaw_request o cid tok))
                   (snd (_callAPIRaw_request o cid tok)))
        (EvFetch (fst (_callAPIRaw_request o cid tok))
                 (snd (_callAPIRaw_request o cid tok))).
Proof.
  unfold _callAPIRaw. destruct (_callAPIRaw_request o cid tok). reflexivity.
Qed.

Lemma dispatch_event_kind (o : TwitchAPICallOptions) (cid tok : option string)
      (r : result Response.t) :
  is_dispatch (dispatch_event o cid tok r) = true /\
  is_refresh (dispatch_event o cid tok r) = false /\
  is_getAccessToken (dispatch_event o cid tok r) = false.
Proof.
  unfold dispatch_event. destruct (type o) as [[] |]; repeat split.
Qed.

Lemma dispatch_event_route (o : TwitchAPICallOptions) (cid tok : option string)
      (r : result Response.t) :
  is_limiter_request (dispatch_event o cid tok r) =
    match type o with
    | Some Helix => true
    | _ => false
    end /\
  is_fetch (dispatch_event o cid tok r) =
    match type o with
    | Some Helix => false
    | _ => true
    end.
Proof.
  unfold dispatch_event. destruct (type o) as [[] |]; split; reflexivity.
Qed.

End PipelineInvariants.

(** One collaborator answers: every outcome it can give is a case. *)
Ltac answer :=
  match goal with
  | |- context [authProvider_getAccessToken ?env ?a ?w] =>
      destruct (authProvider_getAccessToken env a w) as [[[? |] | ?] ?]
  | |- context [authProvider_refresh ?env ?w] =>
      destruct (authProvider_refresh env w) as [[? | ?] ?]
  | |- context [dispatch_step ?env ?o ?c ?t ?w] =>
      destruct (dispatch_step env o c t w) as [[? | ?] ?]
  | |- context [fetch ?env ?u ?i ?w] =>
      destruct (fetch env u i w) as [[? | ?] ?]
  | |- context [if ?b then _ else _] => destruct b
  end.

(** Running [callAPI] against every behaviour of the collaborators. *)
Ltac explore :=
  unfold run, callAPI, static_callAPI;
  repeat (cbv beta iota zeta
              delta [bind ret throw settled await await_getAccessToken
                     await_refresh fst snd];
          rewrite ?callAPIInternal_await, ?callAPIRaw_await;
          try answer).

Section PipelineBounds.
Context `{Platform} {W : Type} (env : Env W).

(** X5. Whatever the collaborators answer, one call of [callAPI]
    dispatches at most twice, refreshes at most twice (once for an expired
    token, once after a 401) and asks for a token at most twice. *)
Theorem callAPI_bounded_interactions (authProvider : AuthProvider.t)
        (o : TwitchAPICallOptions) (w : W) :
  let log := snd (snd (run (callAPI env authProvider o) w)) in
  (count is_dispatch log <= 2)%nat /\
  (count is_refresh log <= 2)%nat /\
  (count is_getAccessToken log <= 2)%nat.
Proof.
  intros log. unfold log, count. explore;
    simpl;
    repeat match goal with
           | |- context [dispatch_event ?o ?c ?t ?r] =>
               let Hd := fresh in
               let Hr := fresh in
               let Hg := fresh in
               destruct (dispatch_event_kind o c t r) as [Hd [Hr Hg]];
               rewrite ?Hd, ?Hr, ?Hg; clear Hd Hr Hg;
               generalize (dispatch_event o c t r); intro
           end;
    simpl; lia.
Qed.

End PipelineBounds.

(** Running [callAPI] when some answers of the collaborators are known:
    the equation [known] is used wherever it applies. *)
Ltac explore_with known :=
  unfold run, callAPI, static_callAPI;
  repeat (cbv beta iota zeta
              delta [bind ret throw settled await await_getAccessToken
                     await_refresh fst snd];
          rewrite ?callAPIInternal_await, ?callAPIRaw_await, ?known;
          try answer).

Section PipelinePaths.
Context `{Platform} {W : Type} (env : Env W).

(** From its first dispatch on, the call is the dispatch, the retry
    cycle and the decoding. *)
Lemma callAPI_from_dispatch (authProvider : AuthProvider.t)
      (o : TwitchAPICallOptions) (w0 w2 : W) (tok0 tok1 : AccessToken.t)
      (before : list Event) :
  let cid := Some (AuthProvider.clientId authProvider) in
  let bearer (t : AccessToken.t) := Some (AccessToken.accessToken t) in
  reaches_dispatch env authProvider o w0 tok0 tok1 w2 before ->
  run (callAPI env authProvider o) w0 =
  (response <- await (dispatch_step env o cid (bearer tok1))
                     (dispatch_event o cid (bearer tok1)) ;;
   response <-
     (if (Response.status response =? 401)%Z
         && AuthProvider.has_refresh authProvider
      then
        _ <- await_refresh env ;;
        accessToken <- await_getAccessToken env (scope_argument o (Some [])) ;;
        match accessToken with
        | Some accessToken => _callAPIInternal env o cid (bearer accessToken)
        | None => ret response
        end
      else ret response) ;;
   settled (_transformResponse response)) (w2, before).
Proof.
  intros cid bearer [w1 [Hget Hexpired]].
  unfold run, callAPI. fold cid.
  unfold bind at 1. unfold await_getAccessToken at 1.
  rewrite (await_run _ _ _ _ _ _ Hget). simpl app.
  unfold bind at 1.
  destruct (AccessToken.isExpired tok0 && AuthProvider.has_refresh authProvider).
  - destruct Hexpired as [Hrefresh ->].
    unfold await_refresh at 1. rewrite (await_run _ _ _ _ _ _ Hrefresh).
    simpl app. rewrite callAPIInternal_await. reflexivity.
  - destruct Hexpired as [-> [-> ->]].
    unfold ret at 1. rewrite callAPIInternal_await. reflexivity.
Qed.

(** X6. A call is dispatched once and that answer is decoded whenever
    the answer is not a 401 or the provider cannot refresh: only a 401
    together with a provider that can refresh starts a retry. *)
Theorem callAPI_single_dispatch (authProvider : AuthProvider.t)
        (o : TwitchAPICallOptions) (w0 w2 w3 : W) (tok0 tok1 : AccessToken.t)
        (before : list Event) (r1 : Response.t) :
  let cid := Some (AuthProvider.clientId authProvider) in
  let bearer := Some (AccessToken.accessToken tok1) in
  reaches_dispatch env authProvider o w0 tok0 tok1 w2 before ->
  dispatch_step env o cid bearer w2 = (Ok r1, w3) ->
  Response.status r1 <> 401%Z \/ AuthProvider.has_refresh authProvider = false ->
  run (callAPI env authProvider o) w0 =
    (_transformResponse r1,
     (w3, (before ++ [dispatch_event o cid bearer (Ok r1)])%list)).
Proof.
  intros cid bearer Hreach Hdispatch Hno.
  rewrite (callAPI_from_dispatch _ _ _ _ _ _ _ Hreach).
  fold cid. fold bearer. unfold bind at 1.
  rewrite (await_run _ _ _ _ _ _ Hdispatch). unfold bind at 1.
  assert (Hcond : (Response.status r1 =? 401)%Z
                  && AuthProvider.has_refresh authProvider = false).
  { destruct Hno as [Hstatus | Hrefresh].
    - apply Z.eqb_neq in Hstatus. now rewrite Hstatus.
    - rewrite Hrefresh. apply andb_false_r. }
  rewrite Hcond. reflexivity.
Qed.

(** X7. An expired token of a provider that can refresh is refreshed
    before anything is dispatched: the first dispatch carries the
    refreshed token, and if the refresh is rejected the call is rejected
    with that error and nothing is dispatched. *)
Theorem callAPI_refreshes_expired_token_first (authProvider : AuthProvider.t)
        (o : TwitchAPICallOptions) (w0 w1 w2 : W) (tok0 : AccessToken.t)
        (refreshed : result AccessToken.t) :
  let cid := Some (AuthProvider.clientId authProvider) in
  let outcome := run (callAPI env authProvider o) w0 in
  AuthProvider.has_refresh authProvider = true ->
  authProvider_getAccessToken env (scope_argument o None) w0
    = (Ok (Some tok0), w1) ->
  AccessToken.isExpired tok0 = true ->
  authProvider_refresh env w1 = (refreshed, w2) ->
  match refreshed with
  | Ok tok1 =>
      let bearer := Some (AccessToken.accessToken tok1) in
      firstn 3 (snd (snd outcome)) =
      [EvGetAccessToken (scope_argument o None) (Ok (Some tok0));
       EvRefresh (Ok tok1);
       dispatch_event o cid bearer (fst (dispatch_step env o cid bearer w2))]
  | Err e =>
      outcome = (Err e,
                 (w2, [EvGetAccessToken (scope_argument o None) (Ok (Some tok0));
                       EvRefresh (Err e)]))
  end.
Proof.
  intros cid outcome Hcan Hget Hexpired Hrefresh. unfold outcome.
  destruct refreshed as [tok1 | e].
  - assert (Hreach : reaches_dispatch env authProvider o w0 tok0 tok1 w2
                       [EvGetAccessToken (scope_argument o None) (Ok (Some tok0));
                        EvRefresh (Ok tok1)]).
    { exists w1. split; [exact Hget |]. rewrite Hexpired, Hcan. now split. }
    rewrite (callAPI_from_dispatch _ _ _ _ _ _ _ Hreach). fold cid.
    explore_with Hcan; reflexivity.
  - unfold run, callAPI, bind at 1, await_getAccessToken at 1.
    rewrite (await_run _ _ _ _ _ _ Hget).
    rewrite Hexpired, Hcan. simpl andb. cbv iota. unfold bind at 1.
    unfold await_refresh. rewrite (await_run _ _ _ _ _ _ Hrefresh).
    reflexivity.
Qed.

(** X8. A rejection by a collaborator ends the call with that very
    error: when the provider rejects the token request nothing is
    dispatched, and when the dispatch is rejected nothing is retried,
    refreshed or decoded. *)
Theorem callAPI_propagates_rejections (authProvider : AuthProvider.t)
        (o : TwitchAPICallOptions) (w0 : W) (e : Error) :
  let cid := Some (AuthProvider.clientId authProvider) in
  (forall w1,
      authProvider_getAccessToken env (scope_argument o None) w0 = (Err e, w1) ->
      run (callAPI env authProvider o) w0 =
        (Err e, (w1, [EvGetAccessToken (scope_argument o None) (Err e)]))) /\
  (forall tok0 tok1 w2 w3 before,
      reaches_dispatch env authProvider o w0 tok0 tok1 w2 before ->
      dispatch_step env o cid (Some (AccessToken.accessToken tok1)) w2
        = (Err e, w3) ->
      run (callAPI env authProvider o) w0 =
        (Err e,
         (w3, (before ++ [dispatch_event o cid
                            (Some (AccessToken.accessToken tok1)) (Err e)])%list))).
Proof.
  intros cid. split.
  - intros w1 Hget. unfold run, callAPI, bind, await_getAccessToken.
    rewrite (await_run _ _ _ _ _ _ Hget). reflexivity.
  - intros tok0 tok1 w2 w3 before Hreach Hdispatch.
    rewrite (callAPI_from_dispatch _ _ _ _ _ _ _ Hreach).
    fold cid. unfold bind at 1.
    rewrite (await_run _ _ _ _ _ _ Hdispatch). reflexivity.
Qed.

(** X9. When the refresh after a 401, or the token request that follows
    it, is rejected, the call is rejected with that error: the 401 answer
    is not decoded and the caller does not see the HTTP status error. *)
Theorem callAPI_failed_refresh_hides_status (authProvider : AuthProvider.t)
        (o : TwitchAPICallOptions) (w0 w2 w3 : W) (tok0 tok1 : AccessToken.t)
        (before : list Event) (r1 : Response.t) (e : Error) :
  let cid := Some (AuthProvider.clientId authProvider) in
  let bearer := Some (AccessToken.accessToken tok1) in
  let first := (before ++ [dispatch_event o cid bearer (Ok r1)])%list in
  reaches_dispatch env authProvider o w0 tok0 tok1 w2 before ->
  dispatch_step env o cid bearer w2 = (Ok r1, w3) ->
  Response.status r1 = 401%Z ->
  AuthProvider.has_refresh authProvider = true ->
  (forall w4,
      authProvider_refresh env w3 = (Err e, w4) ->
      run (callAPI env authProvider o) w0 =
        (Err e, (w4, (first ++ [EvRefresh (Err e)])%list))) /\
  (forall refreshed w4 w5,
      authProvider_refresh env w3 = (Ok refreshed, w4) ->
      authProvider_getAccessToken env (scope_argument o (Some [])) w4
        = (Err e, w5) ->
      run (callAPI env authProvider o) w0 =
        (Err e,
         (w5, (first ++ [EvRefresh (Ok refreshed);
                         EvGetAccessToken (scope_argument o (Some [])) (Err e)])%list))).
Proof.
  intros cid bearer first Hreach Hdispatch H401 Hcan.
  assert (Hrun :
    run (callAPI env authProvider o) w0 =
    (response <-
       (_ <- await_refresh env ;;
        accessToken <- await_getAccessToken env (scope_argument o (Some [])) ;;
        match accessToken with
        | Some t => _callAPIInternal env o cid (Some (AccessToken.accessToken t))
        | None => ret r1
        end) ;;
     settled (_transformResponse response)) (w3, first)).
  { rewrite (callAPI_from_dispatch _ _ _ _ _ _ _ Hreach).
    fold cid. fold bearer. unfold bind at 1.
    rewrite (await_run _ _ _ _ _ _ Hdispatch). unfold bind at 1.
    rewrite H401, Hcan. reflexivity. }
  rewrite Hrun. split.
  - intros w4 Hrefresh. unfold bind, await_refresh.
    rewrite (await_run _ _ _ _ _ _ Hrefresh). reflexivity.
  - intros refreshed w4 w5 Hrefresh Hget. unfold bind, await_refresh.
    rewrite (await_run _ _ _ _ _ _ Hrefresh).
    unfold await_getAccessToken.
    rewrite (await_run _ _ _ _ _ _ Hget).
    rewrite <- app_assoc. reflexivity.
Qed.

End PipelinePaths.

(** X6, at a 401 answered to a client whose provider cannot refresh: one
    dispatch, decoded into the HTTP status error. *)
Lemma callAPI_single_dispatch_witness :
  let fixed := {| AuthProvider.clientId := "abc123";
                  AuthProvider.has_refresh := false |} in
  let w0 :=
    {| Sample.tokens := [Ok (Some (Sample.token "old"))];
       Sample.refreshes := [Ok (Sample.token "new")];
       Sample.responses :=
         [Ok (Sample.response 401 "Unauthorized" "{}");
          Ok (Sample.response 200 "OK" "[1,2]")] |} in
  let outcome :=
    run (callAPI (H := Sample.platform) Sample.env fixed
           (Sample.call (Some Helix) "users")) w0 in
  fst outcome = Err (HTTPStatusCodeError 401 "Unauthorized" (JObject [])) /\
  count is_dispatch (snd (snd outcome)) = 1%nat /\
  count is_refresh (snd (snd outcome)) = 0%nat.
Proof.
  intros fixed w0 outcome. unfold outcome.
  rewrite (callAPI_single_dispatch (H := Sample.platform) Sample.env fixed
             (Sample.call (Some Helix) "users") w0
             (snd (Sample.next_token w0))
             (snd (Sample.next_response (snd (Sample.next_token w0))))
             (Sample.token "old") (Sample.token "old")
             [EvGetAccessToken None (Ok (Some (Sample.token "old")))]
             (Sample.response 401 "Unauthorized" "{}")).
  - repeat split.
  - exists (snd (Sample.next_token w0)). repeat split.
  - reflexivity.
  - right. reflexivity.
Defined.

(** X7, at an expired token: the refreshed token is the one sent. *)
Lemma callAPI_refreshes_expired_token_first_witness :
  let stale := {| AccessToken.accessToken := "stale";
                  AccessToken.isExpired := true |} in
  let w0 :=
    {| Sample.tokens := [Ok (Some stale)];
       Sample.refreshes := [Ok (Sample.token "new")];
       Sample.responses := [Ok (Sample.response 200 "OK" "[1,2]")] |} in
  let o := Sample.call (Some Helix) "users" in
  firstn 3 (snd (snd (run (callAPI (H := Sample.platform) Sample.env
                             Sample.refreshable o) w0))) =
  [EvGetAccessToken None (Ok (Some stale));
   EvRefresh (Ok (Sample.token "new"));
   EvLimiterRequest
     {| options := o; clientId := Some "abc123"; accessToken := Some "new" |}
     (Ok (Sample.response 200 "OK" "[1,2]"))].
Proof.
  intros stale w0 o.
  exact (callAPI_refreshes_expired_token_first (H := Sample.platform)
           Sample.env Sample.refreshable o w0
           (snd (Sample.next_token w0))
           (snd (Sample.next_refresh (snd (Sample.next_token w0))))
           stale (Ok (Sample.token "new"))
           eq_refl eq_refl eq_refl eq_refl).
Defined.

(** X8, at a transport that fails: the call fails with its error. *)
Lemma callAPI_propagates_rejections_witness :
  let down := ExternalError "network down" in
  let w0 :=
    {| Sample.tokens := [Ok (Some (Sample.token "old"))];
       Sample.refreshes := [Ok (Sample.token "new")];
       Sample.responses := [Err down; Ok (Sample.response 200 "OK" "[1,2]")] |} in
  let outcome :=
    run (callAPI (H := Sample.platform) Sample.env Sample.refreshable
           (Sample.call None "user")) w0 in
  fst outcome = Err down /\
  count is_dispatch (snd (snd outcome)) = 1%nat /\
  count is_refresh (snd (snd outcome)) = 0%nat.
Proof.
  intros down w0 outcome. unfold outcome.
  rewrite (proj2 (callAPI_propagates_rejections (H := Sample.platform)
                    Sample.env Sample.refreshable (Sample.call None "user")
                    w0 down)
             (Sample.token "old") (Sample.token "old")
             (snd (Sample.next_token w0))
             (snd (Sample.next_response (snd (Sample.next_token w0))))
             [EvGetAccessToken None (Ok (Some (Sample.token "old")))]).
  - repeat split.
  - exists (snd (Sample.next_token w0)). repeat split.
  - reflexivity.
Defined.

(** X9, at a refresh that fails after a 401: the caller sees the error
    of the refresh. *)
Lemma callAPI_failed_refresh_hides_status_witness :
  let failed := ExternalError "refresh failed" in
  let w0 :=
    {| Sample.tokens := [Ok (Some (Sample.token "old"))];
       Sample.refreshes := [Err failed];
       Sample.responses :=
         [Ok (Sample.response 401 "Unauthorized" "{}");
          Ok (Sample.response 200 "OK" "[1,2]")] |} in
  let outcome :=
    run (callAPI (H := Sample.platform) Sample.env Sample.refreshable
           (Sample.call None "user")) w0 in
  fst outcome = Err failed /\
  count is_dispatch (snd (snd outcome)) = 1%nat.
Proof.
  intros failed w0 outcome. unfold outcome.
  pose (w1 := snd (Sample.next_token w0)).
  pose (w3 := snd (Sample.next_response w1)).
  rewrite (proj1 (callAPI_failed_refresh_hides_status (H := Sample.platform)
                    Sample.env Sample.refreshable (Sample.call None "user")
                    w0 w1 w3 (Sample.token "old") (Sample.token "old")
                    [EvGetAccessToken None (Ok (Some (Sample.token "old")))]
                    (Sample.response 401 "Unauthorized" "{}") failed
                    (ex_intro _ w1 (conj eq_refl (conj eq_refl (conj eq_refl eq_refl))))
                    eq_refl eq_refl eq_refl)
             (snd (Sample.next_refresh w3)) eq_refl).
  repeat split.
Defined.

Section PipelineRouting.
Context `{Platform} {W : Type} (env : Env W).

(** X10. Which collaborator a call is sent to. A descriptor of another
    group than Helix never reaches the rate limiter. A Helix call of a
    provider that has a token never reaches the transport directly. A
    call of a provider that has no token is sent once, by the transport
    and past the rate limiter, also when it is a Helix call. *)
Theorem callAPI_routing (authProvider : AuthProvider.t)
        (o : TwitchAPICallOptions) (w0 : W) :
  let log := snd (snd (run (callAPI env authProvider o) w0)) in
  (type o <> Some Helix -> count is_limiter_request log = 0%nat) /\
  (forall tok0 w1,
      type o = Some Helix ->
      authProvider_getAccessToken env (scope_argument o None) w0
        = (Ok (Some tok0), w1) ->
      count is_fetch log = 0%nat) /\
  (forall w1,
      authProvider_getAccessToken env (scope_argument o None) w0
        = (Ok None, w1) ->
      count is_limiter_request log = 0%nat /\ count is_fetch log = 1%nat).
Proof.
  intros log. unfold log, count. split; [| split].
  - intros Hty. explore; simpl;
      repeat match goal with
             | |- context [dispatch_event ?o ?c ?t ?r] =>
                 rewrite (proj1 (dispatch_event_route o c t r))
             end;
      destruct (type o) as [[] |]; try reflexivity; now elim Hty.
  - intros tok0 w1 Hty Hget. explore_with Hget; simpl;
      repeat match goal with
             | |- context [dispatch_event ?o ?c ?t ?r] =>
                 rewrite (proj2 (dispatch_event_route o c t r))
             end;
      rewrite ?Hty; reflexivity.
  - intros w1 Hget. explore_with Hget; simpl; split; reflexivity.
Qed.

End PipelineRouting.

(** X10, at a Helix call of a client without a token. *)
Lemma callAPI_routing_witness :
  let w0 :=
    {| Sample.tokens := [Ok None]; Sample.refreshes := [];
       Sample.responses := [Ok (Sample.response 200 "OK" "[1,2]")] |} in
  let log :=
    snd (snd (run (callAPI (H := Sample.platform) Sample.env Sample.refreshable
                     (Sample.call (Some Helix) "users")) w0)) in
  count is_limiter_request log = 0%nat /\ count is_fetch log = 1%nat.
Proof.
  intros w0 log.
  exact (proj2 (proj2 (callAPI_routing (H := Sample.platform) Sample.env
                         Sample.refreshable
                         (Sample.call (Some Helix) "users") w0))
           (snd (Sample.next_token w0)) eq_refl).
Defined.

(** ** Token introspection and issuance *)

Section TokenRequests.
Context `{Platform} {W : Type} (env : Env W).

Lemma static_callAPI_run (o : TwitchAPICallOptions) (cid tok : option string)
      (w : W) (log : list Event) :
  let request := _callAPIRaw_request o cid tok in
  static_callAPI env o cid tok (w, log) =
  let '(r, w') := fetch env (fst request) (snd request) w in
  (match r with
   | Ok response => _transformResponse response
   | Err e => Err e
   end,
   (w', (log ++ [EvFetch (fst request) (snd request) r])%list)).
Proof.
  intros request. unfold static_callAPI, bind.
  rewrite callAPIRaw_await. fold request. unfold await, settled.
  destruct (fetch env (fst request) (snd request) w) as [[response | e] w'];
    reflexivity.
Qed.

(** X11. The static [getTokenInfo] makes one [GET] request to the
    validate endpoint; the token travels in the [Authorization] header
    with the [OAuth] scheme (and not at all when it is the empty string),
    and the client identifier given to the call has no effect on the
    request. *)
Theorem static_getTokenInfo_request (tok : string) (cid : option string)
        (w : W) (log : list Event) :
  let request := _callAPIRaw_request validate_options None (Some tok) in
  let params := stringify None (Some Repeat) in
  _callAPIRaw_request validate_options cid (Some tok) = request /\
  fst request =
    "https://id.twitch.tv/oauth2/validate"
      ++ (if truthy_string params then "?" ++ params else "") /\
  snd request =
    {| RequestInit.method := GET;
       RequestInit.headers :=
         ("Accept", "application/json")
           :: (if truthy_string tok
               then [("Authorization", "OAuth " ++ tok)] else []);
       RequestInit.body := None |} /\
  snd (snd (static_getTokenInfo env tok cid (w, log))) =
    (log ++ [EvFetch (fst request) (snd request)
               (fst (fetch env (fst request) (snd request) w))])%list.
Proof.
  intros request params.
  assert (Hcid : _callAPIRaw_request validate_options cid (Some tok) = request).
  { unfold request, _callAPIRaw_request, attach_client_id. simpl.
    destruct cid as [c |]; [| reflexivity].
    now rewrite andb_false_r. }
  split; [exact Hcid |]. split; [| split].
  - unfold request. rewrite request_url. simpl. fold params.
    destruct (truthy_string params); reflexivity.
  - unfold request, _callAPIRaw_request. simpl.
    destruct (truthy_string tok); reflexivity.
  - unfold static_getTokenInfo, try_catch, bind at 1.
    rewrite static_callAPI_run, Hcid.
    destruct (fetch env (fst request) (snd request) w) as [[response | e] w'].
    + simpl. destruct (_transformResponse response) as [data | e];
        [reflexivity |].
      destruct (is_unauthorized e); reflexivity.
    + simpl. destruct (is_unauthorized e); reflexivity.
Qed.

Section Issuance.
Variable AccessToken_new : JSValue -> AccessToken.t.

(** One [POST] to the token endpoint with the query [q] and nothing
    else, its answer decoded and wrapped. *)
Lemma token_call_run (q : QueryRecord) (w : W) (log : list Event) :
  let params := stringify (Some q) (Some Repeat) in
  let u := "https://id.twitch.tv/oauth2/token"
             ++ (if truthy_string params then "?" ++ params else "") in
  let init := {| RequestInit.method := POST;
                 RequestInit.headers := [("Accept", "application/json")];
                 RequestInit.body := None |} in
  (data <- static_callAPI env
             {| url := "token"; type := Some Auth; method := Some POST;
                query := Some q; body := None; jsonBody := JUndefined;
                scope := None; version := None |} None None ;;
   ret (AccessToken_new data)) (w, log) =
  let '(r, w') := fetch env u init w in
  (match r with
   | Ok response =>
       match _transformResponse response with
       | Ok data => Ok (AccessToken_new data)
       | Err e => Err e
       end
   | Err e => Err e
   end,
   (w', (log ++ [EvFetch u init r])%list)).
Proof.
  intros params u init. unfold bind at 1. rewrite static_callAPI_run.
  assert (Hrequest :
    _callAPIRaw_request
      {| url := "token"; type := Some Auth; method := Some POST;
         query := Some q; body := None; jsonBody := JUndefined;
         scope := None; version := None |} None None = (u, init)).
  { unfold _callAPIRaw_request. simpl. fold params. unfold u.
    destruct (truthy_string params); reflexivity. }
  rewrite Hrequest. simpl fst. simpl snd.
  destruct (fetch env u init w) as [[response | e] w']; [| reflexivity].
  destruct (_transformResponse response); reflexivity.
Qed.

(** X12. Each of the three token issuance calls makes exactly one
    [POST] to the token endpoint. The credentials travel in the query
    string, in the order the call lists them; the request has no body and
    no header but [Accept: application/json]. The decoded answer is
    wrapped into an access token, and a rejection, the HTTP status error
    of a 401 included, is passed on as it is. *)
Theorem token_issuance_requests (cid secret code redirectUri refreshToken : string)
        (w : W) (log : list Event) :
  let issue (q : QueryRecord) :=
    let params := stringify (Some q) (Some Repeat) in
    let u := "https://id.twitch.tv/oauth2/token"
               ++ (if truthy_string params then "?" ++ params else "") in
    let init := {| RequestInit.method := POST;
                   RequestInit.headers := [("Accept", "application/json")];
                   RequestInit.body := None |} in
    let '(r, w') := fetch env u init w in
    (match r with
     | Ok response =>
         match _transformResponse response with
         | Ok data => Ok (AccessToken_new data)
         | Err e => Err e
         end
     | Err e => Err e
     end,
     (w', (log ++ [EvFetch u init r])%list)) in
  static_getAccessToken env AccessToken_new cid secret code redirectUri (w, log)
    = issue [("grant_type", QString "authorization_code");
             ("client_id", QString cid); ("client_secret", QString secret);
             ("code", QString code); ("redirect_uri", QString redirectUri)] /\
  static_getAppAccessToken env AccessToken_new cid secret (w, log)
    = issue [("grant_type", QString "client_credentials");
             ("client_id", QString cid); ("client_secret", QString secret)] /\
  static_refreshAccessToken env AccessToken_new cid secret refreshToken (w, log)
    = issue [("grant_type", QString "refresh_token");
             ("client_id", QString cid); ("client_secret", QString secret);
             ("refresh_token", QString refreshToken)].
Proof.
  intros issue. unfold issue. split; [| split].
  - unfold static_getAccessToken. apply token_call_run.
  - unfold static_getAppAccessToken. apply token_call_run.
  - unfold static_refreshAccessToken. apply token_call_run.
Qed.

End Issuance.
End TokenRequests.


(** ** Construction *)

Section ConstructionFacts.
Context `{Imported} {W : Type} (env : Env W).

Lemma constructor_with_provider {P : Type} (config : PartialTwitchConfig P)
      (provider : P) (w : W) (log : list Event) :
  given_authProvider config = Some provider ->
  let requested :=
    authProvider_getAccessToken env (given_initialScopes config) w in
  TwitchClient_new env config (w, log) =
    (inr {| _config := merged_config provider config;
            _helixRateLimiter :=
              HelixRateLimiter_new (logLevel_or_critical config) |},
     match given_preAuth config with
     | Some true =>
         (snd requested,
          (log ++ [EvGetAccessToken (given_initialScopes config)
                     (fst requested)])%list)
     | _ => (w, log)
     end).
Proof.
  intros Hprovider requested. unfold TwitchClient_new. rewrite Hprovider.
  simpl. destruct (given_preAuth config) as [[] |]; try reflexivity.
  unfold await_getAccessToken, await. fold requested.
  destruct requested as [r w']. reflexivity.
Qed.

(** X13. The constructor throws [ConfigError] exactly when the
    configuration holds no provider, and then nothing else happens: no
    token is requested even if [preAuth] is set. With a provider it
    always returns a client that holds this provider, whatever the
    outcome of the token request is; a token is requested, for the initial
    scopes, exactly when [preAuth] is [true]; and the cheermote defaults
    are the given ones, or dark, animated and scale 1. *)
Theorem constructor_requires_provider {P : Type}
        (config : PartialTwitchConfig P) (w : W) (log : list Event) :
  match given_authProvider config with
  | None =>
      TwitchClient_new env config (w, log) =
        (inl (ConfigError_new "No auth provider given"), (w, log))
  | Some provider =>
      let requested :=
        authProvider_getAccessToken env (given_initialScopes config) w in
      exists client,
        TwitchClient_new env config (w, log) =
          (inr client,
           match given_preAuth config with
           | Some true =>
               (snd requested,
                (log ++ [EvGetAccessToken (given_initialScopes config)
                           (fst requested)])%list)
           | _ => (w, log)
           end) /\
        _getAuthProvider client = provider /\
        cheermoteDefaults client =
          match given_cheermotes config with
          | Some c => c
          | None => {| defaultBackground := dark; defaultState := animated;
                       defaultScale := x1 |}
          end
  end.
Proof.
  destruct (given_authProvider config) as [provider |] eqn:Hprovider.
  - intros requested. eexists. split; [| split].
    + apply constructor_with_provider. exact Hprovider.
    + reflexivity.
    + reflexivity.
  - unfold TwitchClient_new. rewrite Hprovider. reflexivity.
Qed.

(** X14. The two factories never throw [ConfigError], and the client
    they return holds the provider they build, whatever provider the
    given configuration holds: [withCredentials] a static provider,
    wrapped into a refreshable one exactly when a refresh configuration is
    given; [withClientCredentials] a client credentials provider, or a
    static provider without a token when the secret is missing or empty.
    The rest of the given configuration is kept: [preAuth] (or [false]),
    the initial scopes, the log level and the cheermote defaults (or
    dark, animated and scale 1). *)
Theorem factories_install_their_provider {P : Type}
        (config : PartialTwitchConfig P) (cid : string)
        (tok secret : option string) (scopes : option (list string))
        (refreshConfig : option RefreshConfig)
        (tokenType : AuthProviderTokenType.t) (s : Run W) :
  (exists client,
      fst (withCredentials env cid tok scopes refreshConfig config tokenType s)
        = inr client /\
      _getAuthProvider client =
        match refreshConfig with
        | Some rc =>
            RefreshableAuthProvider_new
              (StaticAuthProvider_new cid tok scopes (Some tokenType)) rc
        | None => StaticAuthProvider_new cid tok scopes (Some tokenType)
        end /\
      preAuth (_config client) = match given_preAuth config with
                                 | Some b => b
                                 | None => false
                                 end /\
      initialScopes (_config client) = given_initialScopes config /\
      logLevel (_config client) = given_logLevel config /\
      cheermotes (_config client) =
        match given_cheermotes config with
        | Some c => c
        | None => {| defaultBackground := dark; defaultState := animated;
                     defaultScale := x1 |}
        end) /\
  (exists client,
      fst (withClientCredentials env cid secret config s) = inr client /\
      _getAuthProvider client =
        match secret with
        | Some (String c rest) =>
            ClientCredentialsAuthProvider_new cid (String c rest)
        | Some EmptyString | None => StaticAuthProvider_new cid None None None
        end /\
      preAuth (_config client) = match given_preAuth config with
                                 | Some b => b
                                 | None => false
                                 end /\
      initialScopes (_config client) = given_initialScopes config /\
      logLevel (_config client) = given_logLevel config /\
      cheermotes (_config client) =
        match given_cheermotes config with
        | Some c => c
        | None => {| defaultBackground := dark; defaultState := animated;
                     defaultScale := x1 |}
        end).
Proof.
  destruct s as [w log]. split.
  - unfold withCredentials.
    match goal with
    | |- context [with_authProvider config ?p] =>
        rewrite (constructor_with_provider (with_authProvider config p) p
                   w log eq_refl)
    end.
    eexists. repeat split.
  - unfold withClientCredentials.
    match goal with
    | |- context [with_authProvider config ?p] =>
        rewrite (constructor_with_provider (with_authProvider config p) p
                   w log eq_refl)
    end.
    eexists. split; [reflexivity |]. split; [| repeat split].
    destruct secret as [[| c rest] |]; reflexivity.
Qed.

End ConstructionFacts.

(** The constructor and a factory on concrete configurations. *)
Example constructor_example :
  let w0 := {| Sample.tokens := [Err (ExternalError "no token")];
               Sample.refreshes := []; Sample.responses := [] |} in
  let eager : PartialTwitchConfig (H := SampleImports.imported) AuthProvider.t :=
    {| given_authProvider := Some Sample.refreshable;
       given_preAuth := Some true;
       given_initialScopes := Some ["user_read"];
       given_cheermotes := None; given_logLevel := None |} in
  let orphan : PartialTwitchConfig (H := SampleImports.imported) AuthProvider.t :=
    {| given_authProvider := None; given_preAuth := Some true;
       given_initialScopes := None; given_cheermotes := None;
       given_logLevel := None |} in
  snd (snd (TwitchClient_new Sample.env eager (w0, []))) =
    [EvGetAccessToken (Some ["user_read"]) (Err (ExternalError "no token"))] /\
  TwitchClient_new Sample.env orphan (w0, []) =
    (inl (ConfigError_new "No auth provider given"), (w0, [])) /\
  match fst (withClientCredentials (H := SampleImports.imported) Sample.env
               "abc123" (Some "") orphan (w0, [])) with
  | inr client =>
      _getAuthProvider client = StaticAuthProvider_new "abc123" None None None
  | inl _ => False
  end.
Proof. repeat split. Qed.

(** ** Outcomes *)

Section Outcomes.
Context `{Platform} {W : Type} (env : Env W).

(** X15. A call of [callAPI] never makes up its outcome: whatever the
    collaborators answer, it talks to at least one of them, and it is
    rejected with the error of the last one it talked to if that one
    rejected, and otherwise gives the decoding of the last response it
    received. *)
Theorem callAPI_outcome_is_last_answer (authProvider : AuthProvider.t)
        (o : TwitchAPICallOptions) (w : W) :
  let outcome := run (callAPI env authProvider o) w in
  match last_event (snd (snd outcome)) with
  | None => False
  | Some ev =>
      match rejection ev with
      | Some e => fst outcome = Err e
      | None =>
          exists response,
            last_response (snd (snd outcome)) = Some response /\
            fst outcome = _transformResponse response
      end
  end.
Proof.
  intros outcome. unfold outcome, last_event, last_response.
  explore; unfold dispatch_event; destruct (type o) as [[] |]; simpl;
    try reflexivity; eexists; split; reflexivity.
Qed.

(** X16. When the validate endpoint answers, the static [getTokenInfo]
    is rejected with [InvalidTokenError] exactly when the status is 401
    and the body is JSON; a 401 whose body is not JSON is rejected with
    the parser's error instead. *)
Theorem static_getTokenInfo_invalid_iff (tok : string) (cid : option string)
        (w w' : W) (log : list Event) (response : Response.t) :
  let request := _callAPIRaw_request validate_options cid (Some tok) in
  let answer := fst (static_getTokenInfo env tok cid (w, log)) in
  fetch env (fst request) (snd request) w = (Ok response, w') ->
  (answer = Err InvalidTokenError <->
   Response.status response = 401%Z /\
   JSON_parse (Response.text response) <> None) /\
  (Response.status response = 401%Z ->
   JSON_parse (Response.text response) = None ->
   answer = Err SyntaxError).
Proof.
  intros request answer Hfetch.
  assert (Hanswer :
    answer = match _transformResponse response with
             | Ok data => Ok (TokenInfo_new data)
             | Err e => Err (if is_unauthorized e then InvalidTokenError else e)
             end).
  { unfold answer, static_getTokenInfo, try_catch, bind at 1.
    rewrite static_callAPI_run. fold request. rewrite Hfetch. simpl.
    destruct (_transformResponse response) as [data | e]; [reflexivity |].
    destruct (is_unauthorized e); reflexivity. }
  rewrite Hanswer. clear Hanswer.
  pose proof (transformResponse_not_ok response) as Hnot.
  unfold _transformResponse, Response_json in *.
  destruct (Response.ok response) eqn:Hok; simpl in *.
  - apply ok_in_range in Hok. split.
    + split.
      * intros Hbad. exfalso.
        destruct (Response.status response =? 204)%Z; [discriminate |].
        destruct (truthy_string (Response.text response)); [| discriminate].
        destruct (JSON_parse (Response.text response)); discriminate.
      * intros [H401 _]. lia.
    + intros H401. lia.
  - clear Hnot.
    destruct (JSON_parse (Response.text response)) as [parsed |] eqn:Hparse.
    + simpl. split.
      * destruct (Response.status response =? 401)%Z eqn:Hcode.
        -- apply Z.eqb_eq in Hcode. split; [intros _ | reflexivity].
           split; [exact Hcode | discriminate].
        -- apply Z.eqb_neq in Hcode. split; [discriminate |].
           intros [H401 _]. contradiction.
      * intros _ Hnone. discriminate.
    + simpl. split; [| reflexivity].
      split; [discriminate |]. intros [_ Hsome]. now elim Hsome.
Qed.

End Outcomes.

(** X16, at a 401 with a JSON body and at a 401 with a page of HTML. *)
Lemma static_getTokenInfo_invalid_iff_witness :
  let script (text : string) :=
    {| Sample.tokens := []; Sample.refreshes := [];
       Sample.responses := [Ok (Sample.response 401 "Unauthorized" text)] |} in
  let answer (text : string) :=
    fst (static_getTokenInfo (H := Sample.platform) Sample.env "stale" None
           (script text, [])) in
  answer "{}" = Err InvalidTokenError /\
  answer "<html>" = Err SyntaxError.
Proof.
  intros script answer. split.
  - apply (proj1 (static_getTokenInfo_invalid_iff (H := Sample.platform)
                    Sample.env "stale" None (script "{}")
                    (snd (Sample.next_response (script "{}"))) []
                    (Sample.response 401 "Unauthorized" "{}") eq_refl)).
    split; [reflexivity | discriminate].
  - apply (proj2 (static_getTokenInfo_invalid_iff (H := Sample.platform)
                    Sample.env "stale" None (script "<html>")
                    (snd (Sample.next_response (script "<html>"))) []
                    (Sample.response 401 "Unauthorized" "<html>") eq_refl));
      reflexivity.
Defined.
